(** * tglog: a Telegram logger (Go), embedded and verified

    Source files covered: [tglog/tglog.go] (severity model, formatter,
    transport sender, delivery queue, worker, facade) and
    [tglog/helpers.go] ([GetLogLevelFromString]).

    Go values are modelled as the code has them: [LogLevel] is an [int]
    (here [Z]), Go strings are byte strings ([string]), the buffered channel
    is a FIFO list with a capacity and a closed flag, the wait group is an
    integer counter.  Effects (the HTTP POST, the writes to [os.Stderr],
    [os.Exit]) are recorded in an explicit world that is threaded through
    every operation. *)

From Stdlib Require Import ZArith List String Ascii Bool Lia DecimalString.
Import ListNotations.

Open Scope string_scope.
Open Scope Z_scope.

(** ** Severity model *)

(** [type LogLevel int] with [Debug = iota], ..., [Fatal]. *)
Definition LogLevel : Type := Z.

Definition Debug : LogLevel := 0.
Definition Info : LogLevel := 1.
Definition Warning : LogLevel := 2.
Definition Error : LogLevel := 3.
Definition Fatal : LogLevel := 4.

(** The [fmt.Sprintf] calls of the package with a constant template are
    written out as concatenations. *)

(** [fmt.Sprintf("<code>%s</code>", prefix)] *)
Definition code_tag (prefix : string) : string :=
  "<code>" ++ prefix ++ "</code>".

(** [fmt.Sprintf("<b><code>%s</code></b>", prefix)] *)
Definition bold_code_tag (prefix : string) : string :=
  "<b><code>" ++ prefix ++ "</code></b>".

(** The [emoji] variable of [getLogLevelPrefix], byte for byte as the
    literals stand in [tglog.go]. *)
Definition emoji_of (level : LogLevel) : string :=
  if level =? Debug then "üîç"
  else if level =? Info then "‚ÑπÔ∏è"
  else if level =? Warning then "‚ö†Ô∏è"
  else if level =? Error then "‚ùå"
  else if level =? Fatal then "üíÄ"
  else "‚ùì".


(** The [prefix] variable of [getLogLevelPrefix] after the [colored] test:
    [<code>] for Debug and Info, [<b><code>] for Warning, Error and Fatal,
    nothing in the [default] case. *)
Definition tag_of (level : LogLevel) (colored : bool) : string :=
  if level =? Debug then
    (if colored then code_tag "DEBUG" else "DEBUG")
  else if level =? Info then
    (if colored then code_tag "INFO" else "INFO")
  else if level =? Warning then
    (if colored then bold_code_tag "WARNING" else "WARNING")
  else if level =? Error then
    (if colored then bold_code_tag "ERROR" else "ERROR")
  else if level =? Fatal then
    (if colored then bold_code_tag "FATAL" else "FATAL")
  else "UNKNOWN".

(** [getLogLevelPrefix]: [fmt.Sprintf("%s [%s]", emoji, prefix)]. *)
Definition getLogLevelPrefix (level : LogLevel) (colored : bool) : string :=
  emoji_of level ++ " [" ++ tag_of level colored ++ "]".

(** [GetLogLevelFromString] of [helpers.go]: a [switch] on the string
    itself, compared byte for byte. *)
Definition GetLogLevelFromString (level : string) : LogLevel :=
  if String.eqb level "debug" then Debug
  else if String.eqb level "info" then Info
  else if String.eqb level "warning" || String.eqb level "warn" then Warning
  else if String.eqb level "error" then Error
  else if String.eqb level "fatal" then Fatal
  else Info.

(** ** Configuration and construction *)

(** [*http.Client]: only the timeout is set by this package
    ([10 * time.Second], in nanoseconds). *)
Record Client : Type := mkClient { Timeout : Z }.

Definition default_client : Client := mkClient (10 * 1000000000).

Record Config : Type := mkConfig {
  BotToken : string;
  ChatID : string;
  MinLevel : LogLevel;
  AppName : string;
  Async : bool;
  DisableColors : bool;
  TimeFormat : string;
  HTTPClient : option Client   (* [None] is the nil pointer *)
}.

Definition default_time_format : string := "2006-01-02 15:04:05".

(** [DefaultConfig] *)
Definition DefaultConfig : Config :=
  mkConfig "" "" Info "" true false default_time_format (Some default_client).

(** [type message struct]; [T] is [time.Time]. *)
Record message (T : Type) : Type := mkMessage {
  level : LogLevel;
  content : string;
  time : T
}.
Arguments mkMessage {T} _ _ _.
Arguments level {T} _.
Arguments content {T} _.
Arguments time {T} _.

(** [type telegramMessage struct] *)
Record telegramMessage : Type := mkTelegramMessage {
  tm_ChatID : string;
  tm_Text : string;
  tm_ParseMode : string
}.

(** A buffered Go channel: the buffered values in FIFO order (the head is
    received next) and whether [close] was called on it.  The only channel
    of the package is made with capacity 100 ([queue_capacity] below). *)
Record chan (A : Type) : Type := mkChan {
  buf : list A;
  chan_closed : bool
}.
Arguments mkChan {A} _ _.
Arguments buf {A} _.
Arguments chan_closed {A} _.

(** [type Logger struct].  The mutex [mu] carries no data: every operation
    below is one critical section or one step of the worker, and the
    operations are composed in sequence (see [action]).  [msgQueue] is
    [None] for the nil channel of a synchronous logger. *)
Record Logger (T : Type) : Type := mkLogger {
  config : Config;
  httpClient : option Client;
  msgQueue : option (chan (message T));
  wg : Z;
  closed : bool
}.
Arguments mkLogger {T} _ _ _ _ _.
Arguments config {T} _.
Arguments httpClient {T} _.
Arguments msgQueue {T} _.
Arguments wg {T} _.
Arguments closed {T} _.

(** The two results of [New]: a logger with a nil error, or a nil logger
    with the error built by [fmt.Errorf]. *)
Inductive result (A : Type) : Type :=
| Ok (a : A)
| Err (msg : string).
Arguments Ok {A} _.
Arguments Err {A} _.

(** [New].  The goroutine started by [go logger.processQueue()] is the
    worker whose iterations are the [AWorker] actions below. *)
Definition New {T : Type} (config : Config) : result (Logger T) :=
  if String.eqb (BotToken config) "" then Err "bot token is required"
  else if String.eqb (ChatID config) "" then Err "chat ID is required"
  else
    let client :=
      match HTTPClient config with
      | None => Some default_client
      | Some c => Some c
      end in
    let format :=
      if String.eqb (TimeFormat config) "" then default_time_format
      else TimeFormat config in
    let config' :=
      mkConfig (BotToken config) (ChatID config) (MinLevel config)
               (AppName config) (Async config) (DisableColors config)
               format client in
    Ok (mkLogger config' client
          (if Async config then Some (mkChan [] false) else None)
          0 false).

(** ** The world around the logger *)

(** What one call of [sendMessage] meets outside the program:
    [json.Marshal] returns an error, [httpClient.Post] returns an error, or
    the POST completes with an HTTP status. *)
Inductive outcome : Type :=
| MarshalFails (err : string)
| PostFails (err : string)
| Responds (StatusCode : Z).

(** The observable effects: [httpClient.Post] called with a URL and the
    marshalled [telegramMessage], a line written to [os.Stderr], and
    [os.Exit]. *)
Inductive event : Type :=
| EvPost (url : string) (body : telegramMessage)
| EvStderr (line : string)
| EvExit (code : Z).

(** The process: running, ended by [os.Exit], ended by a Go panic (close of
    a nil or closed channel, send on a closed channel, negative wait-group
    counter), or blocked for ever (send on a nil channel, [wg.Wait] on a
    counter that no one will bring to zero). *)
Inductive process : Type :=
| Live
| Exited (code : Z)
| Panicked
| Stuck.

(** [calls] lists, oldest first, the arguments of every [sendMessage] call
    made so far; [trace] lists the effects, oldest first. *)
Record World : Type := mkWorld {
  calls : list (LogLevel * string);
  trace : list event;
  proc : process
}.

Definition world0 : World := mkWorld [] [] Live.

Definition is_live (w : World) : bool :=
  match proc w with Live => true | _ => false end.

Definition emit (e : event) (w : World) : World :=
  mkWorld (calls w) (trace w ++ [e]) (proc w).

Definition halt (p : process) (w : World) : World :=
  mkWorld (calls w) (trace w) p.

(** [os.Exit(code)] *)
Definition os_Exit (code : Z) (w : World) : World :=
  halt (Exited code) (emit (EvExit code) w).

Definition nl : string := String (ascii_of_nat 10) "".

(** [%d] of an [int] *)
Definition itoa (n : Z) : string := NilZero.string_of_int (Z.to_int n).

(** The lines written to [os.Stderr] in a trace, and the POSTs issued. *)
Definition stderr_of (tr : list event) : list string :=
  flat_map (fun e => match e with EvStderr s => [s] | _ => [] end) tr.

Definition posts_of (tr : list event) : list (string * telegramMessage) :=
  flat_map (fun e => match e with EvPost u b => [(u, b)] | _ => [] end) tr.

Section Tglog.

(** [time.Time] and [now.Format(layout)] *)
Variable T : Type.
Variable Format : T -> string -> string.

(** the values behind [args ...interface{}] and
    [fmt.Sprintf(format, args...)] for the caller's template *)
Variable Arg : Type.
Variable Sprintf : string -> list Arg -> string.

(** [net k] is what the [k]-th call of [sendMessage] (counted from 0)
    meets. *)
Variable net : nat -> outcome.

Definition State : Type := (Logger T * World)%type.

(** [sendMessage] *)
Definition sendMessage (l : Logger T) (level : LogLevel) (content : string)
    (w : World) : World :=
  let apiURL :=
    "https://api.telegram.org/bot" ++ BotToken (config l) ++ "/sendMessage" in
  let msg := mkTelegramMessage (ChatID (config l)) content "HTML" in
  let w0 := mkWorld (calls w ++ [(level, content)]) (trace w) (proc w) in
  match net (List.length (calls w)) with
  | MarshalFails err =>
      emit (EvStderr ("tglog: failed to marshal message: " ++ err ++ nl)) w0
  | PostFails err =>
      emit (EvStderr ("tglog: failed to send message: " ++ err ++ nl))
           (emit (EvPost apiURL msg) w0)
  | Responds StatusCode =>
      let w1 := emit (EvPost apiURL msg) w0 in
      let w2 :=
        if StatusCode >=? 400 then
          emit (EvStderr ("tglog: telegram API returned error status: "
                          ++ itoa StatusCode ++ nl)) w1
        else w1 in
      if level =? Fatal then os_Exit 1 w2 else w2
  end.

Definition set_queue (l : Logger T) (q : option (chan (message T)))
    (n : Z) : Logger T :=
  mkLogger (config l) (httpClient l) q n (closed l).

Definition set_closed (l : Logger T) : Logger T :=
  mkLogger (config l) (httpClient l) (msgQueue l) (wg l) true.

(** One iteration of the [for msg := range l.msgQueue] loop of
    [processQueue]: receive the head of the channel, send it, [wg.Done()].
    With nothing buffered the worker waits (open channel) or has left the
    loop (closed channel): the state stays as it is. *)
Definition worker_iter (s : State) : State :=
  let (l, w) := s in
  if negb (is_live w) then s
  else
    match msgQueue l with
    | None => s
    | Some ch =>
        match buf ch with
        | [] => s
        | msg :: rest =>
            let l1 :=
              set_queue l (Some (mkChan rest (chan_closed ch))) (wg l) in
            let w1 := sendMessage l1 (level msg) (content msg) w in
            if negb (is_live w1) then (l1, w1)
            else if wg l - 1 <? 0 then (l1, halt Panicked w1)
            else (set_queue l1 (msgQueue l1) (wg l - 1), w1)
        end
    end.

(** [processQueue] on a channel that holds [n] messages and receives no
    more. *)
Fixpoint processQueue (n : nat) (s : State) : State :=
  match n with
  | O => s
  | S n' => processQueue n' (worker_iter s)
  end.

(** capacity of [make(chan message, 100)] *)
Definition queue_capacity : nat := 100.

(** [Close].  It holds [l.mu] from beginning to end, so no [log] call
    enqueues while it runs, and [wg.Wait()] returns when the worker has
    sent whatever the channel held: the worker's remaining iterations are
    part of the call. *)
Definition Close (s : State) : State :=
  let (l, w) := s in
  if negb (is_live w) then s
  else if negb (Async (config l)) || closed l then s
  else
    let l1 := set_closed l in
    match msgQueue l1 with
    | None => (l1, halt Panicked w)
    | Some ch =>
        if chan_closed ch then (l1, halt Panicked w)
        else
          let l2 := set_queue l1 (Some (mkChan (buf ch) true)) (wg l1) in
          let (l3, w3) := processQueue (List.length (buf ch)) (l2, w) in
          if negb (is_live w3) then (l3, w3)
          else if wg l3 =? 0 then (l3, w3)
          else (l3, halt Stuck w3)
    end.

(** The text built by [log]: [formattedMsg]. *)
Definition formattedMsg (cfg : Config) (now : T) (level : LogLevel)
    (format : string) (args : list Arg) : string :=
  let content := Sprintf format args in
  let prefix := getLogLevelPrefix level (negb (DisableColors cfg)) in
  let timestamp := Format now (TimeFormat cfg) in
  let appName :=
    if negb (String.eqb (AppName cfg) "") then
      "<b>[" ++ AppName cfg ++ "]</b> "
    else "" in
  appName ++ prefix ++ " " ++ timestamp ++ " - " ++ content.

(** [l.msgQueue <- m] after [l.wg.Add(1)].  On a full channel the caller
    blocks, holding [l.mu], until the worker has received the head; the
    worker's iteration is then part of the call. *)
Definition enqueue (m : message T) (s : State) : State :=
  let (l, w) := s in
  let l1 := set_queue l (msgQueue l) (wg l + 1) in
  match msgQueue l1 with
  | None => (l1, halt Stuck w)
  | Some ch =>
      if chan_closed ch then (l1, halt Panicked w)
      else if (List.length (buf ch) <? queue_capacity)%nat then
        (set_queue l1 (Some (mkChan (buf ch ++ [m]) false)) (wg l1), w)
      else
        let (l2, w2) := worker_iter (l1, w) in
        if negb (is_live w2) then (l2, w2)
        else
          match msgQueue l2 with
          | None => (l2, halt Stuck w2)
          | Some ch2 =>
              (set_queue l2 (Some (mkChan (buf ch2 ++ [m]) false)) (wg l2), w2)
          end
  end.

(** [log]; [now] is the value of [time.Now()].  The source reads
    [l.closed] twice, before and after taking [l.mu]; nothing sets the flag
    back to false, so a call that finds it set at either read behaves as a
    call made after [Close], and the one test here stands for both: an open
    asynchronous logger enqueues, every other logger falls through to the
    [sendMessage] call at the end of the function. *)
Definition log (now : T) (level : LogLevel) (format : string)
    (args : list Arg) (s : State) : State :=
  let (l, w) := s in
  if negb (is_live w) then s
  else if level <? MinLevel (config l) then s
  else
    let formatted := formattedMsg (config l) now level format args in
    if Async (config l) && negb (closed l) then
      enqueue (mkMessage level formatted now) s
    else (l, sendMessage l level formatted w).

(** What the threads of the program do, one operation at a time: a caller
    logs, a caller closes, the worker runs one iteration. *)
Inductive action : Type :=
| ALog (now : T) (level : LogLevel) (format : string) (args : list Arg)
| AClose
| AWorker.

Definition step (s : State) (a : action) : State :=
  match a with
  | ALog now level format args => log now level format args s
  | AClose => Close s
  | AWorker => worker_iter s
  end.

Definition run (acts : list action) (s : State) : State :=
  fold_left step acts s.

End Tglog.

(** ** Reference notions used to state the properties *)

(** ASCII lower-casing of one byte and of a string, to speak about tokens
    "in any letter case". *)
Definition ascii_lower (c : ascii) : ascii :=
  let n := nat_of_ascii c in
  if (65 <=? n)%nat && (n <=? 90)%nat then ascii_of_nat (n + 32) else c.

Fixpoint string_lower (s : string) : string :=
  match s with
  | EmptyString => EmptyString
  | String c s' => String (ascii_lower c) (string_lower s')
  end.

(** The tokens [GetLogLevelFromString] knows. *)
Definition level_tokens : list string :=
  ["debug"; "info"; "warning"; "warn"; "error"; "fatal"].




(** Whether a [sendMessage] call at [level] that meets [o] reaches
    [os.Exit]. *)
Definition exits (level : LogLevel) (o : outcome) : bool :=
  (level =? Fatal) &&
  match o with Responds _ => true | _ => false end.

(** The messages of [msgs] up to and including the first one whose send
    exits the process, when the first of them is the [k]-th send. *)
Fixpoint attempts (net : nat -> outcome) (k : nat)
    (msgs : list (LogLevel * string)) : list (LogLevel * string) :=
  match msgs with
  | [] => []
  | m :: rest =>
      m :: (if exits (fst m) (net k) then [] else attempts net (S k) rest)
  end.

(** Level and text of a queued message. *)
Definition key {T : Type} (m : message T) : LogLevel * string :=
  (level m, content m).

(** The process is live and the channel holds the messages [q], its closed
    flag is [c], and the wait group counts exactly the queued messages. *)
Definition queued {T : Type} (c : bool) (q : list (message T))
    (s : Logger T * World) : Prop :=
  proc (snd s) = Live /\
  msgQueue (fst s) = Some (mkChan q c) /\
  wg (fst s) = Z.of_nat (List.length q).

(** The Running state of an asynchronous logger with configuration [cfg]:
    not closed, channel open. *)
Definition running {T : Type} (cfg : Config) (q : list (message T))
    (s : Logger T * World) : Prop :=
  config (fst s) = cfg /\ Async cfg = true /\ closed (fst s) = false /\
  queued false q s.

(** The [sendMessage] calls there will have been once the worker has gone
    through the messages [q] and then [rest], starting from the world [w]. *)
Definition outlook {T : Type} (net : nat -> outcome) (w : World)
    (q : list (message T)) (rest : list (LogLevel * string))
    : list (LogLevel * string) :=
  (calls w ++ attempts net (List.length (calls w)) (map key q ++ rest))%list.

(** The process was ended by [os.Exit(1)] in the send of a Fatal message,
    which is the last [sendMessage] call made. *)
Definition died_on_fatal (w : World) : Prop :=
  proc w = Exited 1 /\
  exists pre m, calls w = (pre ++ [m])%list /\ fst m = Fatal.

(** A logger and inputs to evaluate the operations on: timestamps are
    already-formatted strings, templates carry no verbs. *)
Definition demo_Format (now : string) (layout : string) : string := now.
Definition demo_Sprintf (format : string) (args : list string) : string :=
  format.

Definition demo_config (async colorless : bool) : Config :=
  mkConfig "TOKEN" "42" Info "X" async colorless "2006-01-02" None.

Definition demo_logger (async colorless : bool) : Logger string :=
  match New (demo_config async colorless) with
  | Ok l => l
  | Err _ => mkLogger (demo_config async colorless) None None 0 false
  end.

Definition demo_url : string :=
  "https://api.telegram.org/botTOKEN/sendMessage".

(** ** The rest of the package *)

(** *** The convenience methods of [tglog.go] *)

Section Methods.

Variable T : Type.
Variable Format : T -> string -> string.
Variable Arg : Type.
Variable Sprintf : string -> list Arg -> string.
Variable net : nat -> outcome.

(** the method [Debug] of [Logger] *)
Definition Logger_Debug (now : T) (format : string) (args : list Arg)
    (s : State T) : State T :=
  log T Format Arg Sprintf net now Debug format args s.

(** the method [Info] of [Logger] *)
Definition Logger_Info (now : T) (format : string) (args : list Arg)
    (s : State T) : State T :=
  log T Format Arg Sprintf net now Info format args s.

(** the method [Warning] of [Logger] *)
Definition Logger_Warning (now : T) (format : string) (args : list Arg)
    (s : State T) : State T :=
  log T Format Arg Sprintf net now Warning format args s.

(** the method [Warn] of [Logger] *)
Definition Logger_Warn (now : T) (format : string) (args : list Arg)
    (s : State T) : State T :=
  Logger_Warning now format args s.

(** the method [Error] of [Logger] *)
Definition Logger_Error (now : T) (format : string) (args : list Arg)
    (s : State T) : State T :=
  log T Format Arg Sprintf net now Error format args s.

(** the method [Fatal] of [Logger] *)
Definition Logger_Fatal (now : T) (format : string) (args : list Arg)
    (s : State T) : State T :=
  log T Format Arg Sprintf net now Fatal format args s.

End Methods.

(** The messages a logger holds in its channel (none for the nil channel
    of a synchronous logger). *)
Definition pending {T : Type} (l : Logger T) : list (message T) :=
  match msgQueue l with
  | Some ch => buf ch
  | None => []
  end.



(** How the world changes under a logger configured with [cfg]: by calls
    of [sendMessage] on a logger with that configuration, and by the
    process ending. *)
Inductive evolves (T : Type) (net : nat -> outcome) (cfg : Config)
    : World -> World -> Prop :=
| evolves_refl (w : World) : evolves T net cfg w w
| evolves_send (l : Logger T) (lvl : LogLevel) (text : string)
    (w w' : World) :
    config l = cfg ->
    evolves T net cfg (sendMessage T net l lvl text w) w' ->
    evolves T net cfg w w'
| evolves_halt (p : process) (w w' : World) :
    evolves T net cfg (halt p w) w' ->
    evolves T net cfg w w'.

(** Whether a [sendMessage] call that meets [o] writes a line to
    [os.Stderr]: on both errors and on a status of 400 or more. *)
Definition reported (o : outcome) : bool :=
  match o with
  | MarshalFails _ => true
  | PostFails _ => true
  | Responds StatusCode => 400 <=? StatusCode
  end.

(** *** The environment: [os.LookupEnv] and [os.Getenv] *)

(** The process environment: [os.LookupEnv(key)] is [env key], [None] for
    an unset variable. *)
Definition Env : Type := string -> option string.

Definition os_LookupEnv (env : Env) (key : string) : option string :=
  env key.

(** [os.Getenv]: the empty string for an unset variable. *)
Definition os_Getenv (env : Env) (key : string) : string :=
  match env key with
  | Some value => value
  | None => ""
  end.

(** Field assignments on a [Config] value ([config.BotToken = ...]). *)
Definition with_BotToken (c : Config) (v : string) : Config :=
  mkConfig v (ChatID c) (MinLevel c) (AppName c) (Async c)
           (DisableColors c) (TimeFormat c) (HTTPClient c).
Definition with_ChatID (c : Config) (v : string) : Config :=
  mkConfig (BotToken c) v (MinLevel c) (AppName c) (Async c)
           (DisableColors c) (TimeFormat c) (HTTPClient c).
Definition with_MinLevel (c : Config) (v : LogLevel) : Config :=
  mkConfig (BotToken c) (ChatID c) v (AppName c) (Async c)
           (DisableColors c) (TimeFormat c) (HTTPClient c).
Definition with_AppName (c : Config) (v : string) : Config :=
  mkConfig (BotToken c) (ChatID c) (MinLevel c) v (Async c)
           (DisableColors c) (TimeFormat c) (HTTPClient c).
Definition with_Async (c : Config) (v : bool) : Config :=
  mkConfig (BotToken c) (ChatID c) (MinLevel c) (AppName c) v
           (DisableColors c) (TimeFormat c) (HTTPClient c).
Definition with_DisableColors (c : Config) (v : bool) : Config :=
  mkConfig (BotToken c) (ChatID c) (MinLevel c) (AppName c) (Async c)
           v (TimeFormat c) (HTTPClient c).
Definition with_TimeFormat (c : Config) (v : string) : Config :=
  mkConfig (BotToken c) (ChatID c) (MinLevel c) (AppName c) (Async c)
           (DisableColors c) v (HTTPClient c).
Definition with_HTTPClient (c : Config) (v : option Client) : Config :=
  mkConfig (BotToken c) (ChatID c) (MinLevel c) (AppName c) (Async c)
           (DisableColors c) (TimeFormat c) v.

(** *** [helpers.go]: [Simple] and [WithEnv] *)

(** [Simple] *)
Definition Simple {T : Type} (env : Env) (appName : string)
    : result (Logger T) :=
  let botToken := os_Getenv env "TELEGRAM_BOT_TOKEN" in
  let chatID := os_Getenv env "TELEGRAM_CHAT_ID" in
  if String.eqb botToken "" then
    Err "TELEGRAM_BOT_TOKEN environment variable not set"
  else if String.eqb chatID "" then
    Err "TELEGRAM_CHAT_ID environment variable not set"
  else
    let config := DefaultConfig in
    let config := with_BotToken config botToken in
    let config := with_ChatID config chatID in
    let config := with_AppName config appName in
    New config.

(** The assignments that [WithEnv] and [SecureWithEnv] both make to the
    default configuration, in the order of the source, from the values they
    have read. *)
Definition configure (config : Config)
    (botToken chatID logLevel appName async disableColors timeFormat
       : string) : Config :=
  let config := with_BotToken config botToken in
  let config := with_ChatID config chatID in
  let config :=
    if negb (String.eqb logLevel "") then
      with_MinLevel config (GetLogLevelFromString logLevel)
    else config in
  let config :=
    if negb (String.eqb appName "") then with_AppName config appName
    else config in
  let config :=
    if String.eqb async "false" then with_Async config false else config in
  let config :=
    if String.eqb disableColors "true" then with_DisableColors config true
    else config in
  let config :=
    if negb (String.eqb timeFormat "") then with_TimeFormat config timeFormat
    else config in
  config.

(** [WithEnv] *)
Definition WithEnv {T : Type} (env : Env) : result (Logger T) :=
  let botToken := os_Getenv env "TELEGRAM_BOT_TOKEN" in
  let chatID := os_Getenv env "TELEGRAM_CHAT_ID" in
  let logLevel := os_Getenv env "TELEGRAM_LOG_LEVEL" in
  let appName := os_Getenv env "TELEGRAM_APP_NAME" in
  let async := os_Getenv env "TELEGRAM_ASYNC" in
  let disableColors := os_Getenv env "TELEGRAM_DISABLE_COLORS" in
  let timeFormat := os_Getenv env "TELEGRAM_TIME_FORMAT" in
  if String.eqb botToken "" then
    Err "TELEGRAM_BOT_TOKEN environment variable not set"
  else if String.eqb chatID "" then
    Err "TELEGRAM_CHAT_ID environment variable not set"
  else
    New (configure DefaultConfig botToken chatID logLevel appName async
           disableColors timeFormat).

(** *** [security.go] *)

(** [type SecureConfig struct]; [Timeout] is a [time.Duration], in
    nanoseconds. *)
Record SecureConfig : Type := mkSecureConfig {
  MinTLSVersion : Z;
  InsecureSkipVerify : bool;
  sc_Timeout : Z
}.

(** [tls.VersionTLS12] *)
Definition VersionTLS12 : Z := 771.

(** [DefaultSecureConfig] *)
Definition DefaultSecureConfig : SecureConfig :=
  mkSecureConfig VersionTLS12 false (10 * 1000000000).

(** The fields of [tls.Config] and [http.Transport] that
    [NewSecureClient] sets. *)
Record tls_Config : Type := mk_tls_Config {
  MinVersion : Z;
  tls_InsecureSkipVerify : bool
}.

Record http_Transport : Type := mk_http_Transport {
  TLSClientConfig : tls_Config;
  ForceAttemptHTTP2 : bool;
  IdleConnTimeout : Z;
  DisableCompression : bool
}.

(** The [*http.Client] that [NewSecureClient] builds: its [Transport] and,
    in [base], its [Timeout].  A [Config] of this development keeps [base];
    the transport decides how the connection is made, which [sendMessage]
    meets as the [outcome] of its POST. *)
Record SecureClient : Type := mkSecureClient {
  Transport : http_Transport;
  base : Client
}.

(** [NewSecureClient] *)
Definition NewSecureClient (config : SecureConfig) : SecureClient :=
  let tlsConfig :=
    mk_tls_Config (MinTLSVersion config) (InsecureSkipVerify config) in
  let transport :=
    mk_http_Transport tlsConfig false (90 * 1000000000) false in
  mkSecureClient transport (mkClient (sc_Timeout config)).

(** [NewSecure] *)
Definition NewSecure {T : Type} (logConfig : Config)
    (secureConfig : SecureConfig) : result (Logger T) :=
  let client := NewSecureClient secureConfig in
  let logConfig := with_HTTPClient logConfig (Some (base client)) in
  New logConfig.

(** [errMissingEnvVar]: [fmt.Errorf("%s environment variable not set",
    name)] *)
Definition errMissingEnvVar (name : string) : string :=
  name ++ " environment variable not set".

Section Lookup.

Variable env : Env.

(** The package-level function variables between [getEnvOk] and
    [os.LookupEnv], at the values they are declared with, innermost
    first.  A pair [(value, exists)] of the source is an [option]. *)
Definition envLookupFromOSFinalImpl (key : string) : option string :=
  os_LookupEnv env key.
Definition envLookupFromOSFinal (key : string) : option string :=
  envLookupFromOSFinalImpl key.
Definition envLookupFromOSImpl (key : string) : option string :=
  envLookupFromOSFinal key.
Definition envLookupFromOS (key : string) : option string :=
  envLookupFromOSImpl key.
Definition implementedOsLookupEnvFinalImpl (key : string) : option string :=
  envLookupFromOS key.
Definition implementedOsLookupEnvFinal (key : string) : option string :=
  implementedOsLookupEnvFinalImpl key.
Definition implementedOsLookupEnvImpl (key : string) : option string :=
  implementedOsLookupEnvFinal key.
Definition implementedOsLookupEnv (key : string) : option string :=
  implementedOsLookupEnvImpl key.
Definition implementedLookupImpl (key : string) : option string :=
  implementedOsLookupEnv key.
Definition implementedLookup (key : string) : option string :=
  implementedLookupImpl key.
Definition tgOsLookupEnvImpl (key : string) : option string :=
  implementedLookup key.
Definition tgOsLookupEnv (key : string) : option string :=
  tgOsLookupEnvImpl key.
Definition osLookupEnvFinalImpl (key : string) : option string :=
  tgOsLookupEnv key.
Definition osLookupEnvFinal (key : string) : option string :=
  osLookupEnvFinalImpl key.
Definition finalEnvLookupImpl (key : string) : option string :=
  osLookupEnvFinal key.
Definition finalEnvLookup (key : string) : option string :=
  finalEnvLookupImpl key.
Definition finalLookupEnv (key : string) : option string :=
  finalEnvLookup key.
Definition lookupRealEnvImpl (key : string) : option string :=
  finalLookupEnv key.
Definition lookupRealEnv (key : string) : option string :=
  lookupRealEnvImpl key.
Definition lookupOsEnvImpl (key : string) : option string :=
  lookupRealEnv key.
Definition lookupOsEnv (key : string) : option string :=
  lookupOsEnvImpl key.
Definition tglogOsLookupEnvImpl (key : string) : option string :=
  lookupOsEnv key.
Definition tglogOsLookupEnv (key : string) : option string :=
  tglogOsLookupEnvImpl key.
Definition osLookupEnvImpl (key : string) : option string :=
  tglogOsLookupEnv key.
Definition osLookupEnv (key : string) : option string :=
  osLookupEnvImpl key.
Definition envLookupImpl (key : string) : option string :=
  osLookupEnv key.
Definition envLookup (key : string) : option string :=
  envLookupImpl key.
Definition tgEnvLookupImpl (key : string) : option string :=
  envLookup key.
Definition LookupEnvImpl (key : string) : option string :=
  tgEnvLookupImpl key.
Definition LookupEnv (key : string) : option string :=
  LookupEnvImpl key.
Definition lookupEnv (key : string) : option string :=
  LookupEnv key.
Definition getOsEnvImpl (key : string) : option string :=
  lookupEnv key.
Definition getOsEnv (key : string) : option string :=
  getOsEnvImpl key.
Definition tgEnvLookup (key : string) : option string :=
  getOsEnv key.
Definition getEnvOk (key : string) : option string :=
  tgEnvLookup key.

(** [getEnv] *)
Definition getEnv (key defaultValue : string) : string :=
  match getEnvOk key with
  | None => defaultValue
  | Some value => value
  end.

(** [SecureWithEnv] *)
Definition SecureWithEnv {T : Type} : result (Logger T) :=
  let logConfig := DefaultConfig in
  let secureConfig := DefaultSecureConfig in
  let botToken := getEnv "TELEGRAM_BOT_TOKEN" "" in
  let chatID := getEnv "TELEGRAM_CHAT_ID" "" in
  let logLevel := getEnv "TELEGRAM_LOG_LEVEL" "" in
  let appName := getEnv "TELEGRAM_APP_NAME" "" in
  let async := getEnv "TELEGRAM_ASYNC" "true" in
  let disableColors := getEnv "TELEGRAM_DISABLE_COLORS" "false" in
  let timeFormat := getEnv "TELEGRAM_TIME_FORMAT" "" in
  if String.eqb botToken "" then
    Err (errMissingEnvVar "TELEGRAM_BOT_TOKEN")
  else if String.eqb chatID "" then
    Err (errMissingEnvVar "TELEGRAM_CHAT_ID")
  else
    NewSecure
      (configure logConfig botToken chatID logLevel appName async
         disableColors timeFormat)
      secureConfig.

End Lookup.

(** An environment given as a list of bindings, first binding first. *)
Fixpoint env_of (bindings : list (string * string)) : Env :=
  fun key =>
    match bindings with
    | [] => None
    | (k, value) :: rest =>
        if String.eqb key k then Some value else env_of rest key
    end.

(** ** Severity model: [GetLogLevelFromString] *)

Lemma eqb_false_of_neq (a b : string) : a <> b -> String.eqb a b = false.
Proof. intro H. now apply String.eqb_neq. Qed.

(** On a token outside [level_tokens] every comparison of the [switch]
    fails. *)
Lemma GetLogLevelFromString_unknown (token : string) :
  ~ In token level_tokens -> GetLogLevelFromString token = Info.
Proof.
  intro H. unfold GetLogLevelFromString.
  rewrite !eqb_false_of_neq; [reflexivity | ..];
    intro E; apply H; subst; cbn; tauto.
Qed.

(** C7, as the claim states it, fails: the upper-case spelling of "debug"
    is not mapped to Debug. *)
Lemma GetLogLevelFromString_upper_debug :
  string_lower "DEBUG" = "debug" /\ GetLogLevelFromString "DEBUG" <> Debug.
Proof. split; [reflexivity | discriminate]. Qed.

(** C7 (amended): the mapping compares the token byte for byte.  A token
    maps to Debug, Warning, Error or Fatal exactly when it is the lower-case
    spelling ("debug"; "warning" or "warn"; "error"; "fatal"), and every
    other token, "info" and every unknown one (other letter cases
    included), maps to Info; the function is total and returns no error. *)
Theorem GetLogLevelFromString_exact (token : string) :
  (GetLogLevelFromString token = Debug <-> token = "debug") /\
  (GetLogLevelFromString token = Warning <->
     token = "warning" \/ token = "warn") /\
  (GetLogLevelFromString token = Error <-> token = "error") /\
  (GetLogLevelFromString token = Fatal <-> token = "fatal") /\
  (GetLogLevelFromString token = Info <->
     token = "info" \/ ~ In token level_tokens).
Proof.
  destruct (in_dec string_dec token level_tokens) as [Hin | Hout].
  - cbn in Hin.
    repeat (destruct Hin as [<- | Hin]; [cbn; intuition discriminate |]).
    contradiction.
  - rewrite (GetLogLevelFromString_unknown token Hout).
    assert (Hne : forall t, In t level_tokens -> token <> t)
      by (intros t Ht E; subst; contradiction).
    unfold Debug, Info, Warning, Error, Fatal.
    repeat split; intro H; try discriminate; auto.
    all: exfalso; repeat destruct H as [H | H];
      try (revert H; apply Hne; cbn; tauto).
Qed.

(** ** Construction: [New] *)

(** C8: [New] returns an error, and no logger, exactly when the bot token
    or the chat ID is empty; with both non-empty it returns a logger. *)
Theorem New_error_iff_missing_credentials (T : Type) (cfg : Config) :
  ((exists msg, @New T cfg = Err msg) <->
     BotToken cfg = "" \/ ChatID cfg = "") /\
  ((exists l, @New T cfg = Ok l) <->
     BotToken cfg <> "" /\ ChatID cfg <> "").
Proof.
  unfold New.
  destruct (String.eqb_spec (BotToken cfg) "") as [Hb | Hb];
    [| destruct (String.eqb_spec (ChatID cfg) "") as [Hc | Hc]].
  - split; split.
    + auto.
    + eauto.
    + intros [l Hl]. discriminate.
    + tauto.
  - split; split.
    + auto.
    + eauto.
    + intros [l Hl]. discriminate.
    + tauto.
  - split; split.
    + intros [msg Hm]. discriminate.
    + tauto.
    + auto.
    + eauto.
Qed.

(** ** Message formatter: [getLogLevelPrefix] and the text built by [log] *)




Section Formatter.

Variable T : Type.
Variable Format : T -> string -> string.
Variable Arg : Type.
Variable Sprintf : string -> list Arg -> string.




End Formatter.




(** ** Transport sender: [sendMessage] *)

Lemma stderr_of_app (a b : list event) :
  stderr_of (a ++ b) = (stderr_of a ++ stderr_of b)%list.
Proof. apply flat_map_app. Qed.

Lemma posts_of_app (a b : list event) :
  posts_of (a ++ b) = (posts_of a ++ posts_of b)%list.
Proof. apply flat_map_app. Qed.

Section Sender.

Variable T : Type.
Variable net : nat -> outcome.

(** Every call is recorded, whatever it meets. *)
Lemma sendMessage_calls (l : Logger T) (level : LogLevel) (content : string)
    (w : World) :
  calls (sendMessage T net l level content w)
  = (calls w ++ [(level, content)])%list.
Proof.
  unfold sendMessage.
  destruct (net (List.length (calls w))) as [e | e | st]; cbn;
    try reflexivity.
  destruct (st >=? 400), (level =? Fatal); reflexivity.
Qed.

(** The process ends in [sendMessage] exactly in the case [exits]. *)
Lemma sendMessage_proc (l : Logger T) (level : LogLevel) (content : string)
    (w : World) :
  proc (sendMessage T net l level content w) =
    if exits level (net (List.length (calls w))) then Exited 1 else proc w.
Proof.
  unfold sendMessage, exits.
  destruct (net (List.length (calls w))) as [e | e | st]; cbn;
    rewrite ?andb_false_r; try reflexivity.
  rewrite andb_true_r.
  destruct (st >=? 400), (level =? Fatal); reflexivity.
Qed.

(** One POST per call, except when marshalling fails. *)
Lemma sendMessage_posts (l : Logger T) (level : LogLevel) (content : string)
    (w : World) :
  posts_of (trace (sendMessage T net l level content w)) =
    (posts_of (trace w) ++
     match net (List.length (calls w)) with
     | MarshalFails _ => []
     | _ => [(("https://api.telegram.org/bot" ++ BotToken (config l)
               ++ "/sendMessage")%string,
              mkTelegramMessage (ChatID (config l)) content "HTML")]
     end)%list.
Proof.
  unfold sendMessage.
  destruct (net (List.length (calls w))) as [e | e | st]; cbn;
    rewrite ?posts_of_app; cbn; rewrite ?app_nil_r; try reflexivity.
  destruct (st >=? 400), (level =? Fatal); cbn;
    rewrite ?posts_of_app; cbn; rewrite ?posts_of_app; cbn;
    rewrite ?app_nil_r; reflexivity.
Qed.

(** C6 (amended): when the POST completes with an HTTP status, one line
    carrying the status is written to [os.Stderr] exactly when the status
    is 400 or more; a status below 400 is reported nowhere. *)
Theorem sendMessage_reports_status_from_400 (l : Logger T)
    (level : LogLevel) (content : string) (w : World) (StatusCode : Z) :
  net (List.length (calls w)) = Responds StatusCode ->
  stderr_of (trace (sendMessage T net l level content w)) =
    (stderr_of (trace w) ++
     (if 400 <=? StatusCode then
        [("tglog: telegram API returned error status: "
          ++ itoa StatusCode ++ nl)%string]
      else []))%list.
Proof.
  intro Hnet. unfold sendMessage. rewrite Hnet.
  replace (StatusCode >=? 400) with (400 <=? StatusCode)
    by (rewrite Z.geb_leb; reflexivity).
  destruct (400 <=? StatusCode), (level =? Fatal); cbn;
    rewrite ?stderr_of_app; cbn; rewrite ?app_nil_r; reflexivity.
Qed.

End Sender.

(** C6, as the claim states it, fails: status 304 is not a 2xx status, and
    the send that meets it writes nothing to [os.Stderr]. *)
Lemma sendMessage_304_not_reported :
  ~ (200 <= 304 <= 299) /\
  stderr_of (trace (sendMessage string (fun _ => Responds 304)
                      (demo_logger false true) Info "hello" world0)) = [].
Proof. split; [lia | reflexivity]. Qed.

Lemma sendMessage_reports_status_from_400_witness :
  stderr_of (trace (sendMessage string (fun _ => Responds 403)
                      (demo_logger false true) Info "hello" world0))
  = ["tglog: telegram API returned error status: 403" ++ nl].
Proof.
  apply (sendMessage_reports_status_from_400 string (fun _ => Responds 403)
           (demo_logger false true) Info "hello" world0 403).
  reflexivity.
Defined.

(** C3 fails on the code: a Fatal message whose POST returns an error is
    sent ([httpClient.Post] is called, the failure is written to
    [os.Stderr]) and [sendMessage] returns before its [os.Exit]: the process
    goes on. *)
Theorem sendMessage_fatal_post_error_no_exit :
  let w := sendMessage string (fun _ => PostFails "connection refused")
             (demo_logger false true) Fatal "boom" world0 in
  proc w = Live /\
  trace w =
    [EvPost demo_url (mkTelegramMessage "42" "boom" "HTML");
     EvStderr ("tglog: failed to send message: connection refused" ++ nl)].
Proof. split; reflexivity. Qed.

(** ** Facade, queue and worker: [log], [Close], [processQueue] *)

Section Lifecycle.

Variable T : Type.
Variable Format : T -> string -> string.
Variable Arg : Type.
Variable Sprintf : string -> list Arg -> string.
Variable net : nat -> outcome.

(** *** A process that has ended does nothing more *)

Lemma step_dead (s : State T) (a : action T Arg) :
  is_live (snd s) = false -> step T Format Arg Sprintf net s a = s.
Proof.
  destruct s as [l w]. cbn [snd]. intro H.
  destruct a; cbn [step]; unfold log, Close, worker_iter; rewrite H;
    reflexivity.
Qed.


Lemma is_live_Live (w : World) : is_live w = true <-> proc w = Live.
Proof. unfold is_live. destruct (proc w); split; congruence. Qed.

(** *** The severity filter *)

(** C9: a log call below the configured minimum returns at once; the logger
    and the world are left as they were: nothing is formatted, queued or
    passed to [sendMessage], and no POST is issued. *)
Theorem log_below_min_dropped (now : T) (level : LogLevel) (format : string)
    (args : list Arg) (l : Logger T) (w : World) :
  level < MinLevel (config l) ->
  log T Format Arg Sprintf net now level format args (l, w) = (l, w).
Proof.
  intro H. unfold log.
  destruct (negb (is_live w)); [reflexivity |].
  apply Z.ltb_lt in H. now rewrite H.
Qed.

(** *** One iteration of the worker *)

Lemma worker_iter_head (c : bool) (m : message T) (q : list (message T))
    (l : Logger T) (w : World) :
  proc w = Live ->
  msgQueue l = Some (mkChan (m :: q) c) ->
  0 < wg l ->
  let s' := worker_iter T net (l, w) in
  config (fst s') = config l /\ closed (fst s') = closed l /\
  calls (snd s') = (calls w ++ [key m])%list /\
  if exits (level m) (net (List.length (calls w)))
  then proc (snd s') = Exited 1
  else proc (snd s') = Live /\
       msgQueue (fst s') = Some (mkChan q c) /\
       wg (fst s') = wg l - 1.
Proof.
  intros Hlive Hq Hwg.
  unfold worker_iter.
  assert (Hl : is_live w = true) by now apply is_live_Live.
  rewrite Hl, Hq. cbn [negb buf chan_closed].
  set (l1 := set_queue T l (Some (mkChan q c)) (wg l)).
  pose proof (sendMessage_proc T net l1 (level m) (content m) w) as Hp.
  pose proof (sendMessage_calls T net l1 (level m) (content m) w) as Hc.
  set (w1 := sendMessage T net l1 (level m) (content m) w) in *.
  destruct (exits (level m) (net (List.length (calls w)))).
  - replace (is_live w1) with false by (unfold is_live; now rewrite Hp).
    cbn. auto.
  - replace (is_live w1) with true
      by (unfold is_live; now rewrite Hp, Hlive).
    replace (wg l - 1 <? 0) with false by (symmetry; apply Z.ltb_ge; lia).
    cbn. repeat split; auto; congruence.
Qed.

Lemma worker_iter_queued (c : bool) (m : message T) (q : list (message T))
    (l : Logger T) (w : World) :
  queued c (m :: q) (l, w) ->
  let s' := worker_iter T net (l, w) in
  config (fst s') = config l /\ closed (fst s') = closed l /\
  calls (snd s') = (calls w ++ [key m])%list /\
  if exits (level m) (net (List.length (calls w)))
  then proc (snd s') = Exited 1
  else queued c q s'.
Proof.
  intros (Hlive & Hq & Hwg). cbn [fst snd] in *.
  assert (Hpos : 0 < wg l) by (rewrite Hwg; cbn [List.length]; lia).
  pose proof (worker_iter_head c m q l w Hlive Hq Hpos) as H.
  cbv zeta in *. destruct H as (H1 & H2 & H3 & H4).
  repeat split; auto.
  destruct (exits (level m) (net (List.length (calls w)))); [exact H4 |].
  destruct H4 as (H4 & H5 & H6). repeat split; auto.
  rewrite H6, Hwg. cbn [List.length]. lia.
Qed.

(** The worker never touches the configuration or the closed flag. *)
Lemma worker_iter_preserves (s : State T) :
  config (fst (worker_iter T net s)) = config (fst s) /\
  closed (fst (worker_iter T net s)) = closed (fst s).
Proof.
  destruct s as [l w]. unfold worker_iter.
  destruct (negb (is_live w)); [auto |].
  destruct (msgQueue l) as [ch |]; [| auto].
  destruct (buf ch) as [| m rest]; [auto |].
  destruct (negb (is_live _)); [auto |].
  destruct (wg l - 1 <? 0); auto.
Qed.

Lemma processQueue_preserves (n : nat) (s : State T) :
  config (fst (processQueue T net n s)) = config (fst s) /\
  closed (fst (processQueue T net n s)) = closed (fst s).
Proof.
  revert s. induction n as [| n IH]; intro s; cbn [processQueue]; [auto |].
  destruct (IH (worker_iter T net s)) as [-> ->].
  apply worker_iter_preserves.
Qed.

(** *** [Close] *)

(** A call of [Close] on a logger that is synchronous or already closed
    (or in a process that has ended) returns at once and changes nothing. *)
Lemma Close_noop (s : State T) :
  is_live (snd s) = false \/ Async (config (fst s)) = false \/
  closed (fst s) = true ->
  Close T net s = s.
Proof.
  destruct s as [l w]. cbn [fst snd]. unfold Close.
  intros [H | [H | H]]; rewrite H; cbn [negb orb];
    [reflexivity | | rewrite orb_true_r];
    destruct (negb (is_live w)); reflexivity.
Qed.

(** Whatever the state, after [Close] the logger is synchronous or closed,
    or the process has ended; and the configuration is the one before. *)
Lemma Close_settles (s : State T) :
  config (fst (Close T net s)) = config (fst s) /\
  (is_live (snd (Close T net s)) = false \/
   Async (config (fst (Close T net s))) = false \/
   closed (fst (Close T net s)) = true).
Proof.
  destruct s as [l w]. unfold Close. cbn [fst snd].
  destruct (is_live w) eqn:Hl; cbn [negb]; [| auto].
  destruct (Async (config l)) eqn:Ha; cbn [negb orb]; [| auto].
  destruct (closed l) eqn:Hc; [auto |].
  cbn [set_closed msgQueue].
  destruct (msgQueue l) as [ch |]; [| cbn; auto].
  destruct (chan_closed ch); [cbn; auto |].
  match goal with
  | |- context [processQueue T net ?n ?s0] =>
      pose proof (processQueue_preserves n s0) as [Hcfg Hcl];
      destruct (processQueue T net n s0) as [l3 w3]
  end.
  cbn [fst snd set_queue set_closed config closed] in Hcfg, Hcl.
  destruct (is_live w3) eqn:Hl3; cbn [negb fst snd]; [| auto].
  destruct (wg l3 =? 0); cbn [fst snd]; auto.
Qed.

(** Once settled, always settled: no step reopens a closed logger. *)
Lemma step_keeps_settled (s : State T) (a : action T Arg) :
  is_live (snd s) = false \/ Async (config (fst s)) = false \/
  closed (fst s) = true ->
  let s' := step T Format Arg Sprintf net s a in
  is_live (snd s') = false \/ Async (config (fst s')) = false \/
  closed (fst s') = true.
Proof.
  intros H s'. subst s'.
  destruct (is_live (snd s)) eqn:Hl;
    [| rewrite step_dead by assumption; auto].
  destruct H as [H | H]; [congruence |].
  destruct a as [now level format args | |]; cbn [step].
  - destruct s as [l w]. cbn [fst snd] in *. unfold log.
    rewrite Hl. cbn [negb].
    destruct (level <? MinLevel (config l)); [auto |].
    replace (Async (config l) && negb (closed l)) with false
      by (destruct H as [-> | ->]; [reflexivity | now rewrite andb_false_r]).
    cbn [fst snd]. auto.
  - rewrite Close_noop by auto. auto.
  - destruct (worker_iter_preserves s) as [-> ->]. auto.
Qed.

Lemma run_keeps_settled (acts : list (action T Arg)) (s : State T) :
  is_live (snd s) = false \/ Async (config (fst s)) = false \/
  closed (fst s) = true ->
  let s' := run T Format Arg Sprintf net acts s in
  is_live (snd s') = false \/ Async (config (fst s')) = false \/
  closed (fst s') = true.
Proof.
  revert s. induction acts as [| a acts IH]; intros s H; [exact H |].
  unfold run. cbn [fold_left]. apply IH. now apply step_keeps_settled.
Qed.

(** C1 (amended): after [Close] has returned on an asynchronous logger, a
    log call at or above the minimum level enqueues nothing (the logger is
    left as it is) and is sent at once by the caller itself: the formatted
    text goes through [sendMessage], which issues one POST unless
    marshalling fails. *)
Theorem log_after_Close_sends_synchronously (s : State T) (now : T)
    (level : LogLevel) (format : string) (args : list Arg) :
  let s' := Close T net s in
  let text := formattedMsg T Format Arg Sprintf (config (fst s')) now level
                format args in
  Async (config (fst s)) = true ->
  proc (snd s') = Live ->
  MinLevel (config (fst s')) <= level ->
  log T Format Arg Sprintf net now level format args s' =
    (fst s', sendMessage T net (fst s') level text (snd s')) /\
  posts_of (trace (snd (log T Format Arg Sprintf net now level format args
                          s'))) =
    (posts_of (trace (snd s')) ++
     match net (List.length (calls (snd s'))) with
     | MarshalFails _ => []
     | _ => [(("https://api.telegram.org/bot"
               ++ BotToken (config (fst s')) ++ "/sendMessage")%string,
              mkTelegramMessage (ChatID (config (fst s'))) text "HTML")]
     end)%list.
Proof.
  intros s' text Ha Hlive Hmin.
  destruct (Close_settles s) as [Hcfg Hset]. fold s' in Hcfg, Hset.
  assert (Hl : is_live (snd s') = true) by now apply is_live_Live.
  assert (Hcl : closed (fst s') = true).
  { destruct Hset as [H | [H | H]]; [congruence | | exact H].
    rewrite Hcfg in H. congruence. }
  assert (Hlog : log T Format Arg Sprintf net now level format args s' =
                 (fst s', sendMessage T net (fst s') level text (snd s'))).
  { destruct s' as [l' w']. cbn [fst snd] in *. unfold log.
    rewrite Hl, Hcl. cbn [negb].
    replace (level <? MinLevel (config l')) with false
      by (symmetry; apply Z.ltb_ge; exact Hmin).
    now rewrite andb_false_r. }
  split; [exact Hlog |].
  rewrite Hlog. cbn [snd]. apply sendMessage_posts.
Qed.

(** *** The worker goes through the queue in order *)

Lemma exits_fatal (level : LogLevel) (o : outcome) :
  exits level o = true -> level = Fatal.
Proof.
  unfold exits. intro H. apply andb_prop in H. now apply Z.eqb_eq.
Qed.


Lemma outlook_nil (w : World) : outlook net w (@nil (message T)) [] = calls w.
Proof. unfold outlook. cbn. apply app_nil_r. Qed.

Lemma outlook_head (w w1 : World) (m : message T) (q : list (message T))
    (rest : list (LogLevel * string)) :
  calls w1 = (calls w ++ [key m])%list ->
  outlook net w (m :: q) rest =
    if exits (level m) (net (List.length (calls w))) then calls w1
    else outlook net w1 q rest.
Proof.
  intro Hc. unfold outlook. cbn [map app attempts key fst].
  destruct (exits (level m) (net (List.length (calls w)))).
  - now rewrite Hc.
  - rewrite Hc, length_app, <- app_assoc. cbn [List.length app].
    now rewrite Nat.add_1_r.
Qed.


Lemma processQueue_dead (n : nat) (s : State T) :
  is_live (snd s) = false -> processQueue T net n s = s.
Proof.
  intro H. induction n as [| n IH]; cbn [processQueue]; [reflexivity |].
  replace (worker_iter T net s) with s; [exact IH |].
  destruct s as [l w]. cbn [snd] in H. unfold worker_iter. now rewrite H.
Qed.

Lemma dead_of_exited (w : World) : proc w = Exited 1 -> is_live w = false.
Proof. unfold is_live. now intros ->. Qed.


(** [processQueue] on a channel that holds [q]: the messages are passed to
    [sendMessage] from the head on, and the loop ends with an empty channel
    and a wait group at zero, unless a Fatal message ended the process. *)
Lemma processQueue_queued (c : bool) (q : list (message T)) (l : Logger T)
    (w : World) :
  queued c q (l, w) ->
  let s' := processQueue T net (List.length q) (l, w) in
  calls (snd s') = outlook net w q [] /\
  ((queued c [] s' /\ calls (snd s') = (calls w ++ map key q)%list)
   \/ died_on_fatal (snd s')).
Proof.
  revert l w. induction q as [| m q IH]; intros l w Hq.
  - cbn. rewrite outlook_nil, app_nil_r. auto.
  - cbn [List.length processQueue].
    pose proof (worker_iter_queued c m q l w Hq) as H. cbv zeta in H.
    destruct H as (_ & _ & Hc & Hx).
    rewrite (outlook_head w _ m q [] Hc).
    destruct (exits (level m) (net (List.length (calls w)))) eqn:E.
    + rewrite processQueue_dead by now apply dead_of_exited.
      split; [reflexivity |]. right. split; [exact Hx |].
      exists (calls w), (key m). split; [exact Hc |].
      now apply exits_fatal in E.
    + destruct (worker_iter T net (l, w)) as [l1 w1].
      cbn [snd] in *.
      destruct (IH l1 w1 Hx) as [H1 H2]. split; [exact H1 |].
      destruct H2 as [[H2 H3] | H2]; [left | now right].
      split; [exact H2 |]. rewrite H3, Hc, <- app_assoc. reflexivity.
Qed.

(** [Close] in the Running state: the first call drains the channel. *)
Lemma Close_running (cfg : Config) (q : list (message T)) (l : Logger T)
    (w : World) :
  running cfg q (l, w) ->
  let s' := Close T net (l, w) in
  calls (snd s') = outlook net w q [] /\
  ((proc (snd s') = Live /\ closed (fst s') = true /\
    msgQueue (fst s') = Some (mkChan [] true) /\ wg (fst s') = 0 /\
    calls (snd s') = (calls w ++ map key q)%list)
   \/ died_on_fatal (snd s')).
Proof.
  intros (Hcfg & Ha & Hcl & Hlive & Hq & Hwg). cbn [fst snd] in *.
  unfold Close.
  replace (is_live w) with true by (symmetry; now apply is_live_Live).
  rewrite Hcfg, Ha, Hcl. cbn [negb orb set_closed msgQueue].
  rewrite Hq. cbn [chan_closed buf set_queue wg].
  match goal with
  | |- context [processQueue T net _ (?l2, w)] =>
      assert (Hq2 : queued true q (l2, w)) by (repeat split; auto);
      pose proof (processQueue_queued true q l2 w Hq2) as H;
      pose proof (processQueue_preserves (List.length q) (l2, w)) as [_ Hc2];
      destruct (processQueue T net (List.length q) (l2, w)) as [l3 w3]
  end.
  cbv zeta in H. cbn [fst snd closed] in *. destruct H as [Hcalls Hend].
  destruct Hend as [((Hl3 & Hq3 & Hwg3) & Hall) | Hdead]; cbn [fst snd] in *.
  - replace (is_live w3) with true by (symmetry; now apply is_live_Live).
    rewrite Hwg3. cbn. auto 10.
  - rewrite (dead_of_exited w3) by apply Hdead. cbn. auto.
Qed.

(** C5: [Close] is idempotent.  The first call on a running logger drains
    the channel: every queued message is passed to [sendMessage], in order,
    and the call returns with the channel closed and empty (unless a Fatal
    message ended the process).  After a first call, whatever the callers
    and the worker do next, every further call of [Close] returns with the
    logger and the world exactly as it found them: no second drain, no
    [sendMessage] call, no effect.  In particular [n + 1] calls in a row
    leave the state of one call. *)
Theorem Close_idempotent (s : State T) :
  (forall (cfg : Config) (q : list (message T)),
     running cfg q s ->
     let s' := Close T net s in
     (proc (snd s') = Live /\ closed (fst s') = true /\
      msgQueue (fst s') = Some (mkChan [] true) /\ wg (fst s') = 0 /\
      calls (snd s') = (calls (snd s) ++ map key q)%list)
     \/ died_on_fatal (snd s')) /\
  (forall acts : list (action T Arg),
     Close T net (run T Format Arg Sprintf net acts (Close T net s)) =
     run T Format Arg Sprintf net acts (Close T net s)) /\
  (forall n : nat,
     Nat.iter (S n) (Close T net) s = Close T net s).
Proof.
  assert (H1 : forall acts : list (action T Arg),
     Close T net (run T Format Arg Sprintf net acts (Close T net s)) =
     run T Format Arg Sprintf net acts (Close T net s)).
  { intro acts. apply Close_noop. apply run_keeps_settled.
    apply Close_settles. }
  split; [| split; [exact H1 |]].
  - intros cfg q Hrun. destruct s as [l w].
    apply (Close_running cfg q l w Hrun).
  - induction n as [| n IH]; [reflexivity |].
    change (Nat.iter (S (S n)) (Close T net) s)
      with (Close T net (Nat.iter (S n) (Close T net) s)).
    rewrite IH. exact (H1 []).
Qed.






End Lifecycle.

(** ** The operations on a concrete logger *)

Lemma log_below_min_dropped_witness :
  log string demo_Format string demo_Sprintf (fun _ => Responds 200)
    "2024-01-15" Debug "noise" [] (demo_logger true true, world0)
  = (demo_logger true true, world0).
Proof.
  apply (log_below_min_dropped string demo_Format string demo_Sprintf
           (fun _ => Responds 200) "2024-01-15" Debug "noise" []
           (demo_logger true true) world0).
  reflexivity.
Defined.

(** C1, as the claim states it, fails: an asynchronous logger is closed,
    [Close] has returned, and the next Info call (at the minimum level)
    issues a POST with the formatted text. *)
Lemma log_after_Close_issues_post :
  let net := fun _ : nat => Responds 200 in
  let s' := Close string net (demo_logger true true, world0) in
  let s'' := log string demo_Format string demo_Sprintf net
               "2024-01-15" Info "hello" [] s' in
  Async (config (fst s')) = true /\ closed (fst s') = true /\
  proc (snd s') = Live /\
  posts_of (trace (snd s')) = [] /\
  posts_of (trace (snd s'')) =
    [(demo_url,
      mkTelegramMessage "42"
        ("<b>[X]</b> " ++ emoji_of Info ++ " [INFO] 2024-01-15 - hello")
        "HTML")].
Proof. cbv zeta. repeat split. Qed.

Lemma log_after_Close_sends_synchronously_witness :
  let net := fun _ : nat => Responds 200 in
  let s' := Close string net (demo_logger true true, world0) in
  log string demo_Format string demo_Sprintf net
    "2024-01-15" Info "hello" [] s'
  = (fst s',
     sendMessage string net (fst s') Info
       (formattedMsg string demo_Format string demo_Sprintf
          (config (fst s')) "2024-01-15" Info "hello" [])
       (snd s')).
Proof.
  apply (log_after_Close_sends_synchronously string demo_Format string
           demo_Sprintf (fun _ => Responds 200)
           (demo_logger true true, world0) "2024-01-15" Info "hello" []).
  - reflexivity.
  - reflexivity.
  - discriminate.
Defined.



Lemma Close_idempotent_witness :
  let net := fun _ : nat => Responds 200 in
  let s := run string demo_Format string demo_Sprintf net
             [ALog string string "2024-01-15" Info "a" [];
              ALog string string "2024-01-15" Warning "b" []]
             (demo_logger true true, world0) in
  let s' := Close string net s in
  proc (snd s') = Live /\ closed (fst s') = true /\
  msgQueue (fst s') = Some (mkChan [] true) /\ wg (fst s') = 0 /\
  calls (snd s') =
    [(Info, "<b>[X]</b> " ++ emoji_of Info ++ " [INFO] 2024-01-15 - a");
     (Warning,
      "<b>[X]</b> " ++ emoji_of Warning ++ " [WARNING] 2024-01-15 - b")].
Proof.
  cbv zeta.
  destruct (proj1 (Close_idempotent string demo_Format string demo_Sprintf
                     (fun _ => Responds 200)
                     (run string demo_Format string demo_Sprintf
                        (fun _ => Responds 200)
                        [ALog string string "2024-01-15" Info "a" [];
                         ALog string string "2024-01-15" Warning "b" []]
                        (demo_logger true true, world0)))
              (config (demo_logger true true))
              [mkMessage Info
                 ("<b>[X]</b> " ++ emoji_of Info ++ " [INFO] 2024-01-15 - a")
                 "2024-01-15";
               mkMessage Warning
                 ("<b>[X]</b> " ++ emoji_of Warning
                  ++ " [WARNING] 2024-01-15 - b")
                 "2024-01-15"])
    as [H | [H _]].
  - repeat split.
  - exact H.
  - discriminate H.
Defined.

(** ** Any schedule on a constructed logger *)

Section Schedules.

Variable T : Type.
Variable Format : T -> string -> string.
Variable Arg : Type.
Variable Sprintf : string -> list Arg -> string.
Variable net : nat -> outcome.

(** A log call on a logger that is synchronous, or closed, never touches
    the channel: below the minimum it does nothing, otherwise it is one
    [sendMessage] call by the caller. *)
Lemma log_direct (now : T) (lvl : LogLevel) (format : string)
    (args : list Arg) (l : Logger T) (w : World) :
  proc w = Live ->
  Async (config l) = false \/ closed l = true ->
  log T Format Arg Sprintf net now lvl format args (l, w) =
    if lvl <? MinLevel (config l) then (l, w)
    else (l, sendMessage T net l lvl
               (formattedMsg T Format Arg Sprintf (config l) now lvl format
                  args) w).
Proof.
  intros Hlive H. unfold log.
  replace (is_live w) with true by (symmetry; now apply is_live_Live).
  cbn [negb]. destruct (lvl <? MinLevel (config l)); [reflexivity |].
  replace (Async (config l) && negb (closed l)) with false; [reflexivity |].
  destruct H as [-> | ->]; [reflexivity | now rewrite andb_false_r].
Qed.







Lemma worker_iter_idle (l : Logger T) (w : World) :
  pending l = [] -> worker_iter T net (l, w) = (l, w).
Proof.
  unfold pending, worker_iter. intro H.
  destruct (negb (is_live w)); [reflexivity |].
  destruct (msgQueue l) as [ch |]; [| reflexivity]. now rewrite H.
Qed.





Lemma run_snoc (acts : list (action T Arg)) (a : action T Arg)
    (s : State T) :
  run T Format Arg Sprintf net (acts ++ [a]) s =
    step T Format Arg Sprintf net (run T Format Arg Sprintf net acts s) a.
Proof. unfold run. now rewrite fold_left_app. Qed.







(** *** The configuration and the requests *)

Lemma evolves_trans (cfg : Config) (a b c : World) :
  evolves T net cfg a b -> evolves T net cfg b c ->
  evolves T net cfg a c.
Proof.
  intros Hab Hbc. induction Hab as [w | l lvl text w w' Hc _ IH | p w w' _ IH].
  - exact Hbc.
  - eapply evolves_send; [exact Hc | now apply IH].
  - eapply evolves_halt. now apply IH.
Qed.

Lemma evolves_one_send (l : Logger T) (lvl : LogLevel) (text : string)
    (w : World) :
  evolves T net (config l) w (sendMessage T net l lvl text w).
Proof. eapply evolves_send; [reflexivity | apply evolves_refl]. Qed.

Lemma evolves_one_halt (cfg : Config) (p : process) (w : World) :
  evolves T net cfg w (halt p w).
Proof. eapply evolves_halt. apply evolves_refl. Qed.

(** No operation changes the configuration or the client of the logger,
    and the world changes only through [sendMessage] and the end of the
    process. *)
Lemma worker_iter_evolves (s : State T) :
  config (fst (worker_iter T net s)) = config (fst s) /\
  httpClient (fst (worker_iter T net s)) = httpClient (fst s) /\
  evolves T net (config (fst s)) (snd s)
    (snd (worker_iter T net s)).
Proof.
  destruct s as [l w]. unfold worker_iter. cbn [fst snd].
  destruct (negb (is_live w)); [repeat split; apply evolves_refl |].
  destruct (msgQueue l) as [ch |]; [| repeat split; apply evolves_refl].
  destruct (buf ch) as [| m rest]; [repeat split; apply evolves_refl |].
  set (l1 := set_queue T l (Some (mkChan rest (chan_closed ch))) (wg l)).
  pose proof (evolves_one_send l1 (level m) (content m) w) as Hs.
  change (config l1) with (config l) in Hs.
  destruct (negb (is_live _)); [repeat split; exact Hs |].
  destruct (wg l - 1 <? 0); cbn [fst snd]; repeat split; try exact Hs.
  eapply evolves_trans; [exact Hs | apply evolves_one_halt].
Qed.

Lemma processQueue_evolves (n : nat) (s : State T) :
  config (fst (processQueue T net n s)) = config (fst s) /\
  httpClient (fst (processQueue T net n s)) = httpClient (fst s) /\
  evolves T net (config (fst s)) (snd s)
    (snd (processQueue T net n s)).
Proof.
  revert s. induction n as [| n IH]; intro s; cbn [processQueue].
  - repeat split. apply evolves_refl.
  - destruct (worker_iter_evolves s) as (H1 & H2 & H3).
    destruct (IH (worker_iter T net s)) as (H4 & H5 & H6).
    rewrite H1 in H6. repeat split; try congruence.
    eapply evolves_trans; eassumption.
Qed.

Lemma Close_evolves (s : State T) :
  config (fst (Close T net s)) = config (fst s) /\
  httpClient (fst (Close T net s)) = httpClient (fst s) /\
  evolves T net (config (fst s)) (snd s) (snd (Close T net s)).
Proof.
  destruct s as [l w]. unfold Close. cbn [fst snd].
  destruct (negb (is_live w)); [repeat split; apply evolves_refl |].
  destruct (negb (Async (config l)) || closed l);
    [repeat split; apply evolves_refl |].
  cbn [set_closed msgQueue].
  destruct (msgQueue l) as [ch |];
    [| repeat split; apply evolves_one_halt].
  destruct (chan_closed ch); [repeat split; apply evolves_one_halt |].
  match goal with
  | |- context [processQueue T net ?n ?s0] =>
      pose proof (processQueue_evolves n s0) as (H1 & H2 & H3);
      destruct (processQueue T net n s0) as [l3 w3]
  end.
  cbn [fst snd set_queue config httpClient] in H1, H2, H3.
  destruct (negb (is_live w3)); [repeat split; assumption |].
  destruct (wg l3 =? 0); cbn [fst snd]; repeat split; try assumption.
  eapply evolves_trans; [exact H3 | apply evolves_one_halt].
Qed.

Lemma log_evolves (now : T) (lvl : LogLevel) (format : string)
    (args : list Arg) (s : State T) :
  let s' := log T Format Arg Sprintf net now lvl format args s in
  config (fst s') = config (fst s) /\
  httpClient (fst s') = httpClient (fst s) /\
  evolves T net (config (fst s)) (snd s) (snd s').
Proof.
  destruct s as [l w]. unfold log. cbn [fst snd].
  destruct (negb (is_live w)); [repeat split; apply evolves_refl |].
  destruct (lvl <? MinLevel (config l));
    [repeat split; apply evolves_refl |].
  destruct (Async (config l) && negb (closed l));
    [| repeat split; apply evolves_one_send].
  unfold enqueue. cbn [set_queue msgQueue wg].
  destruct (msgQueue l) as [ch |];
    [| repeat split; apply evolves_one_halt].
  destruct (chan_closed ch); [repeat split; apply evolves_one_halt |].
  destruct (List.length (buf ch) <? queue_capacity)%nat;
    [repeat split; apply evolves_refl |].
  match goal with
  | |- context [worker_iter T net ?s0] =>
      pose proof (worker_iter_evolves s0) as (H1 & H2 & H3);
      destruct (worker_iter T net s0) as [l2 w2]
  end.
  cbn [fst snd config httpClient] in H1, H2, H3.
  destruct (negb (is_live w2)); [repeat split; assumption |].
  destruct (msgQueue l2); cbn [fst snd]; repeat split; try assumption.
  eapply evolves_trans; [exact H3 | apply evolves_one_halt].
Qed.

Lemma step_evolves (s : State T) (a : action T Arg) :
  let s' := step T Format Arg Sprintf net s a in
  config (fst s') = config (fst s) /\
  httpClient (fst s') = httpClient (fst s) /\
  evolves T net (config (fst s)) (snd s) (snd s').
Proof.
  destruct a; cbn [step];
    [apply log_evolves | apply Close_evolves | apply worker_iter_evolves].
Qed.

Lemma run_evolves (acts : list (action T Arg)) (s : State T) :
  let s' := run T Format Arg Sprintf net acts s in
  config (fst s') = config (fst s) /\
  httpClient (fst s') = httpClient (fst s) /\
  evolves T net (config (fst s)) (snd s) (snd s').
Proof.
  induction acts as [| a acts IH] using rev_ind.
  - cbn. repeat split. apply evolves_refl.
  - cbv zeta in *. rewrite run_snoc.
    destruct IH as (H1 & H2 & H3).
    destruct (step_evolves (run T Format Arg Sprintf net acts s) a)
      as (H4 & H5 & H6).
    cbv zeta in *. rewrite H1 in H6. repeat split; try congruence.
    eapply evolves_trans; eassumption.
Qed.




Lemma sendMessage_stderr_count (l : Logger T) (lvl : LogLevel)
    (text : string) (w : World) :
  List.length (stderr_of (trace (sendMessage T net l lvl text w))) =
    (List.length (stderr_of (trace w)) +
     if reported (net (List.length (calls w))) then 1 else 0)%nat.
Proof.
  unfold sendMessage, reported.
  destruct (net (List.length (calls w))) as [e | e | st]; cbn;
    rewrite ?stderr_of_app, ?length_app; cbn;
    rewrite ?stderr_of_app, ?length_app; cbn; try lia.
  rewrite Z.geb_leb.
  destruct (400 <=? st), (lvl =? Fatal); cbn;
    rewrite ?stderr_of_app, ?length_app; cbn;
    rewrite ?stderr_of_app, ?length_app; cbn; lia.
Qed.

Lemma evolves_stderr_count (cfg : Config) (w w' : World) :
  evolves T net cfg w w' ->
  List.length (stderr_of (trace w)) =
    List.length (filter (fun k => reported (net k))
                   (seq 0 (List.length (calls w)))) ->
  List.length (stderr_of (trace w')) =
    List.length (filter (fun k => reported (net k))
                   (seq 0 (List.length (calls w')))).
Proof.
  intro H. induction H as [w | l lvl text w w' Hc _ IH | p w w' _ IH];
    intro HP; [exact HP | | apply IH; exact HP].
  apply IH.
  rewrite sendMessage_stderr_count, sendMessage_calls, length_app, HP.
  cbn [List.length]. rewrite Nat.add_1_r, seq_S, filter_app, length_app.
  cbn [filter Nat.add].
  destruct (reported (net (List.length (calls w)))); reflexivity.
Qed.

(** X9: every failed send is reported, once, and nothing else is: in
    every schedule on a logger, from a world without effects, the number
    of lines written to [os.Stderr] is the number of [sendMessage] calls
    that met a marshalling error, a POST error or a status of 400 or
    more. *)
Theorem one_stderr_line_per_failed_send (l : Logger T)
    (acts : list (action T Arg)) :
  let w := snd (run T Format Arg Sprintf net acts (l, world0)) in
  List.length (stderr_of (trace w)) =
    List.length (filter (fun k => reported (net k))
                   (seq 0 (List.length (calls w)))).
Proof.
  intro w.
  destruct (run_evolves acts (l, world0)) as (_ & _ & H).
  cbn [fst snd] in H.
  apply (evolves_stderr_count _ _ _ H). reflexivity.
Qed.

(** X4: the configuration of a logger is fixed at construction: in every
    schedule the logger keeps the configuration and the client [New] gave
    it, which are the caller's except for the defaults [New] fills in: the
    token and chat ID are the non-empty ones passed in, the time format is
    never empty, the client is never nil and is the one of the
    configuration. *)
Theorem configuration_is_fixed_by_New (cfg : Config) (l : Logger T)
    (acts : list (action T Arg)) :
  New cfg = Ok l ->
  let l' := fst (run T Format Arg Sprintf net acts (l, world0)) in
  config l' = config l /\
  httpClient l' = HTTPClient (config l') /\
  (exists c, httpClient l' = Some c) /\
  BotToken (config l') = BotToken cfg /\ BotToken cfg <> "" /\
  ChatID (config l') = ChatID cfg /\ ChatID cfg <> "" /\
  MinLevel (config l') = MinLevel cfg /\
  AppName (config l') = AppName cfg /\
  Async (config l') = Async cfg /\
  DisableColors (config l') = DisableColors cfg /\
  TimeFormat (config l') =
    (if String.eqb (TimeFormat cfg) "" then "2006-01-02 15:04:05"
     else TimeFormat cfg) /\
  TimeFormat (config l') <> "".
Proof.
  intros Hnew l'.
  destruct (run_evolves acts (l, world0)) as (H1 & H2 & _).
  cbn [fst] in H1, H2. fold l' in H1, H2. rewrite H1, H2.
  revert Hnew. unfold New.
  destruct (String.eqb_spec (BotToken cfg) "") as [| Hb]; [discriminate |].
  destruct (String.eqb_spec (ChatID cfg) "") as [| Hc]; [discriminate |].
  intro Hnew. injection Hnew as <-. cbn.
  repeat split; auto.
  - destruct (HTTPClient cfg); eauto.
  - destruct (String.eqb_spec (TimeFormat cfg) "") as [| Ht];
      [discriminate | exact Ht].
Qed.

(** A step leaves a synchronous logger as it is. *)
Lemma step_sync (l : Logger T) (w : World) (a : action T Arg) :
  Async (config l) = false -> msgQueue l = None ->
  fst (step T Format Arg Sprintf net (l, w) a) = l.
Proof.
  intros Ha Hq. destruct a as [now lvl format args | |]; cbn [step].
  - unfold log. rewrite Ha. cbn [andb].
    destruct (negb (is_live w)); [reflexivity |].
    destruct (lvl <? MinLevel (config l)); reflexivity.
  - unfold Close. rewrite Ha. cbn [negb orb].
    destruct (negb (is_live w)); reflexivity.
  - unfold worker_iter. rewrite Hq.
    destruct (negb (is_live w)); reflexivity.
Qed.

(** X6: a synchronous logger never changes: in every schedule it stays
    the value [New] returned (no channel, wait group at zero, not closed);
    [Close] and the worker do nothing at all, and an accepted log call is
    exactly one [sendMessage] call made by the caller before it returns. *)
Theorem synchronous_logger_is_stateless (cfg : Config) (l : Logger T)
    (acts : list (action T Arg)) :
  New cfg = Ok l ->
  Async cfg = false ->
  let s := run T Format Arg Sprintf net acts (l, world0) in
  fst s = l /\
  msgQueue l = None /\ wg l = 0 /\ closed l = false /\
  Close T net s = s /\
  worker_iter T net s = s /\
  (forall (now : T) (lvl : LogLevel) (format : string) (args : list Arg),
     proc (snd s) = Live ->
     MinLevel (config l) <= lvl ->
     log T Format Arg Sprintf net now lvl format args s =
       (l, sendMessage T net l lvl
             (formattedMsg T Format Arg Sprintf (config l) now lvl format
                args) (snd s))).
Proof.
  intros Hnew Ha s.
  assert (Hl : Async (config l) = false /\ msgQueue l = None /\
               wg l = 0 /\ closed l = false).
  { revert Hnew. unfold New.
    destruct (String.eqb (BotToken cfg) ""); [discriminate |].
    destruct (String.eqb (ChatID cfg) ""); [discriminate |].
    intro Hnew. injection Hnew as <-. rewrite Ha. cbn. auto. }
  destruct Hl as (Ha' & Hq & Hwg & Hcl).
  assert (Hfst : fst s = l).
  { subst s. induction acts as [| a acts IH] using rev_ind;
      [reflexivity |].
    rewrite run_snoc.
    destruct (run T Format Arg Sprintf net acts (l, world0)) as [l1 w1].
    cbn [fst] in IH. subst l1. now apply step_sync. }
  destruct s as [l1 w1]. cbn [fst snd] in *. subst l1.
  repeat split; auto.
  - apply Close_noop. cbn [fst snd]. auto.
  - apply worker_iter_idle. unfold pending. now rewrite Hq.
  - intros now lvl format args Hlive Hmin.
    rewrite log_direct by auto.
    replace (lvl <? MinLevel (config l)) with false
      by (symmetry; now apply Z.ltb_ge).
    reflexivity.
Qed.

(** X7: on an open asynchronous logger whose channel has room, [Fatal]
    (when the minimum level lets it pass) returns at once with the process
    running: nothing is sent, nothing reaches the world; the formatted
    message is added at the tail of the channel and the wait group counts
    it.  The exit waits for the worker to reach the message. *)
Theorem Fatal_is_queued_when_asynchronous (cfg : Config)
    (q : list (message T)) (l : Logger T) (w : World) (now : T)
    (format : string) (args : list Arg) :
  running cfg q (l, w) ->
  (List.length q < queue_capacity)%nat ->
  MinLevel cfg <= Fatal ->
  Logger_Fatal T Format Arg Sprintf net now format args (l, w) =
    (set_queue T l
       (Some (mkChan
                (q ++ [mkMessage Fatal
                         (formattedMsg T Format Arg Sprintf cfg now Fatal
                            format args) now])
                false))
       (wg l + 1),
     w).
Proof.
  intros (Hcfg & Ha & Hcl & Hlive & Hq & Hwg) Hroom Hmin.
  cbn [fst snd] in *. unfold Logger_Fatal, log.
  replace (is_live w) with true by (symmetry; now apply is_live_Live).
  rewrite Hcfg, Ha, Hcl. cbn [negb andb].
  replace (Fatal <? MinLevel cfg) with false
    by (symmetry; now apply Z.ltb_ge).
  unfold enqueue. cbn [set_queue msgQueue wg]. rewrite Hq.
  cbn [chan_closed buf].
  apply Nat.ltb_lt in Hroom. rewrite Hroom. reflexivity.
Qed.

End Schedules.

(** ** Construction from a configuration and from the environment *)

(** X5: [New] accepts the configuration of a logger it has made, and makes
    the same logger from it: filling in the defaults twice changes
    nothing. *)
Theorem New_accepts_its_own_configuration (T : Type) (cfg : Config)
    (l : Logger T) :
  New cfg = Ok l -> New (config l) = Ok l.
Proof.
  unfold New.
  destruct (String.eqb (BotToken cfg) "") eqn:Hb; [discriminate |].
  destruct (String.eqb (ChatID cfg) "") eqn:Hc; [discriminate |].
  intro H. injection H as <-. cbn. rewrite Hb, Hc.
  destruct (HTTPClient cfg);
    destruct (String.eqb (TimeFormat cfg) "") eqn:Ht; cbn; rewrite ?Ht;
    reflexivity.
Qed.

Lemma GetLogLevelFromString_range (token : string) :
  Debug <= GetLogLevelFromString token <= Fatal.
Proof.
  unfold GetLogLevelFromString, Debug, Info, Warning, Error, Fatal.
  repeat match goal with
  | |- context [if ?b then _ else _] => destruct b
  end; lia.
Qed.

(** X8: for a level outside the five constants [getLogLevelPrefix] takes
    its [default] case: one and the same icon followed by [" [UNKNOWN]"],
    with no markup whether colors are on or off; for the five levels the
    tag is never "UNKNOWN". *)
Theorem getLogLevelPrefix_out_of_range :
  exists icon : string,
  forall (level : LogLevel) (colored : bool),
    (level < Debug \/ Fatal < level ->
     getLogLevelPrefix level colored = icon ++ " [UNKNOWN]") /\
    (Debug <= level <= Fatal -> tag_of level colored <> "UNKNOWN").
Proof.
  exists (emoji_of (-1)). intros level colored.
  unfold Debug, Info, Warning, Error, Fatal. split.
  - intro H. unfold getLogLevelPrefix, emoji_of, tag_of,
      Debug, Info, Warning, Error, Fatal.
    repeat match goal with
    | |- context [level =? ?n] =>
        replace (level =? n) with false by (symmetry; apply Z.eqb_neq; lia)
    end.
    reflexivity.
  - intro H.
    assert (Hl : level = 0 \/ level = 1 \/ level = 2 \/ level = 3
                 \/ level = 4) by lia.
    destruct Hl as [-> | [-> | [-> | [-> | ->]]]]; destruct colored;
      discriminate.
Qed.

Lemma getEnvOk_is_LookupEnv (env : Env) (key : string) :
  getEnvOk env key = os_LookupEnv env key.
Proof. reflexivity. Qed.

Lemma getEnv_empty_default (env : Env) (key : string) :
  getEnv env key "" = os_Getenv env key.
Proof. reflexivity. Qed.

Lemma getEnv_other_default (env : Env) (key default probe : string) :
  default <> probe -> probe <> "" ->
  String.eqb (getEnv env key default) probe =
  String.eqb (os_Getenv env key) probe.
Proof.
  intros Hd Hp. unfold getEnv, os_Getenv.
  rewrite getEnvOk_is_LookupEnv. unfold os_LookupEnv.
  destruct (env key); [reflexivity |].
  rewrite (eqb_false_of_neq _ _ Hd). symmetry. apply eqb_false_of_neq.
  congruence.
Qed.

(** What [New] returns for a configuration with both credentials. *)
Lemma New_with_credentials (T : Type) (cfg : Config) :
  BotToken cfg <> "" -> ChatID cfg <> "" ->
  exists l : Logger T,
    New cfg = Ok l /\
    BotToken (config l) = BotToken cfg /\
    ChatID (config l) = ChatID cfg /\
    MinLevel (config l) = MinLevel cfg /\
    AppName (config l) = AppName cfg /\
    Async (config l) = Async cfg /\
    DisableColors (config l) = DisableColors cfg /\
    TimeFormat (config l) =
      (if String.eqb (TimeFormat cfg) "" then default_time_format
       else TimeFormat cfg) /\
    HTTPClient (config l) =
      match HTTPClient cfg with
      | None => Some default_client
      | Some c => Some c
      end.
Proof.
  intros Hb Hc. unfold New.
  rewrite (eqb_false_of_neq _ _ Hb), (eqb_false_of_neq _ _ Hc).
  eexists. split; [reflexivity |]. cbn. repeat split.
Qed.

(** X10: [WithEnv] fails exactly when TELEGRAM_BOT_TOKEN or
    TELEGRAM_CHAT_ID is unset or empty, naming the first one missing;
    otherwise it returns a logger whose configuration is read off the
    environment: the level through [GetLogLevelFromString] (Info when the
    variable is unset), asynchronous unless TELEGRAM_ASYNC is exactly
    "false", colors unless TELEGRAM_DISABLE_COLORS is exactly "true", the
    default time format when TELEGRAM_TIME_FORMAT is unset or empty, and
    the default client. *)
Theorem WithEnv_reads_the_environment (T : Type) (env : Env) :
  let token := os_Getenv env "TELEGRAM_BOT_TOKEN" in
  let chat := os_Getenv env "TELEGRAM_CHAT_ID" in
  (token = "" ->
   @WithEnv T env =
     Err "TELEGRAM_BOT_TOKEN environment variable not set") /\
  (token <> "" -> chat = "" ->
   @WithEnv T env = Err "TELEGRAM_CHAT_ID environment variable not set") /\
  (token <> "" -> chat <> "" ->
   exists l : Logger T,
     WithEnv env = Ok l /\
     BotToken (config l) = token /\
     ChatID (config l) = chat /\
     MinLevel (config l) =
       GetLogLevelFromString (os_Getenv env "TELEGRAM_LOG_LEVEL") /\
     AppName (config l) = os_Getenv env "TELEGRAM_APP_NAME" /\
     Async (config l) =
       negb (String.eqb (os_Getenv env "TELEGRAM_ASYNC") "false") /\
     DisableColors (config l) =
       String.eqb (os_Getenv env "TELEGRAM_DISABLE_COLORS") "true" /\
     TimeFormat (config l) =
       (if String.eqb (os_Getenv env "TELEGRAM_TIME_FORMAT") ""
        then default_time_format
        else os_Getenv env "TELEGRAM_TIME_FORMAT") /\
     HTTPClient (config l) = Some default_client).
Proof.
  intros token chat. unfold WithEnv. fold token chat.
  split; [intros ->; reflexivity |].
  split; [intros Hb ->; now rewrite (eqb_false_of_neq _ _ Hb) |].
  intros Hb Hc.
  rewrite (eqb_false_of_neq _ _ Hb), (eqb_false_of_neq _ _ Hc).
  match goal with
  | |- context [New ?c] =>
      destruct (New_with_credentials T c) as (l & Hl & H)
  end.
  { unfold configure.
    repeat match goal with
    | |- context [if ?b then _ else _] => destruct b
    end; exact Hb. }
  { unfold configure.
    repeat match goal with
    | |- context [if ?b then _ else _] => destruct b
    end; exact Hc. }
  exists l. split; [exact Hl |].
  destruct H as (H1 & H2 & H3 & H4 & H5 & H6 & H7 & H8).
  rewrite H1, H2, H3, H4, H5, H6, H7, H8. clear.
  unfold configure.
  destruct (String.eqb_spec (os_Getenv env "TELEGRAM_LOG_LEVEL") "")
    as [-> |];
    destruct (String.eqb_spec (os_Getenv env "TELEGRAM_APP_NAME") "")
      as [-> |];
    destruct (String.eqb (os_Getenv env "TELEGRAM_ASYNC") "false");
    destruct (String.eqb (os_Getenv env "TELEGRAM_DISABLE_COLORS") "true");
    destruct (String.eqb_spec (os_Getenv env "TELEGRAM_TIME_FORMAT") "")
      as [-> |];
    cbn; rewrite ?eqb_false_of_neq by assumption; repeat split.
Qed.

(** [New] looks at the client of a configuration only to store it. *)
Lemma New_modulo_client (T : Type) (cfg : Config) (c : option Client) :
  match @New T cfg, @New T (with_HTTPClient cfg c) with
  | Err a, Err b => a = b
  | Ok l1, Ok l2 =>
      with_HTTPClient (config l1) None = with_HTTPClient (config l2) None /\
      msgQueue l1 = msgQueue l2 /\ wg l1 = wg l2 /\ closed l1 = closed l2
  | _, _ => False
  end.
Proof.
  unfold New, with_HTTPClient. cbn.
  destruct (String.eqb (BotToken cfg) ""); [reflexivity |].
  destruct (String.eqb (ChatID cfg) ""); [reflexivity |].
  cbn. auto.
Qed.

(** X11: [SecureWithEnv] and [WithEnv] agree in every environment: they
    fail together, with the same error text, and otherwise return loggers
    that differ at most in the HTTP client: same token, chat ID, minimum
    level, app name, mode, color flag and time format, and the same fresh
    channel.  The defaults "true" and "false" that [SecureWithEnv] gives
    to [getEnv] change nothing. *)
Theorem SecureWithEnv_agrees_with_WithEnv (T : Type) (env : Env) :
  match @WithEnv T env, @SecureWithEnv env T with
  | Err a, Err b => a = b
  | Ok l1, Ok l2 =>
      with_HTTPClient (config l1) None = with_HTTPClient (config l2) None /\
      msgQueue l1 = msgQueue l2 /\ wg l1 = wg l2 /\ closed l1 = closed l2
  | _, _ => False
  end.
Proof.
  unfold WithEnv, SecureWithEnv, NewSecure, errMissingEnvVar.
  rewrite !getEnv_empty_default.
  destruct (String.eqb (os_Getenv env "TELEGRAM_BOT_TOKEN") "");
    [reflexivity |].
  destruct (String.eqb (os_Getenv env "TELEGRAM_CHAT_ID") "");
    [reflexivity |].
  unfold configure.
  rewrite (getEnv_other_default env "TELEGRAM_ASYNC" "true" "false")
    by discriminate.
  rewrite (getEnv_other_default env "TELEGRAM_DISABLE_COLORS" "false" "true")
    by discriminate.
  apply New_modulo_client.
Qed.

(** X12: [Simple] fails exactly when TELEGRAM_BOT_TOKEN or TELEGRAM_CHAT_ID
    is unset or empty, naming the first one missing; otherwise it returns
    a logger with the default configuration (minimum level Info,
    asynchronous, colors, default time format and client) carrying the
    token, the chat ID and the given app name: none of the other
    variables is read. *)
Theorem Simple_uses_the_defaults (T : Type) (env : Env) (appName : string) :
  let token := os_Getenv env "TELEGRAM_BOT_TOKEN" in
  let chat := os_Getenv env "TELEGRAM_CHAT_ID" in
  (token = "" ->
   @Simple T env appName =
     Err "TELEGRAM_BOT_TOKEN environment variable not set") /\
  (token <> "" -> chat = "" ->
   @Simple T env appName =
     Err "TELEGRAM_CHAT_ID environment variable not set") /\
  (token <> "" -> chat <> "" ->
   exists l : Logger T,
     Simple env appName = Ok l /\
     config l =
       mkConfig token chat Info appName true false default_time_format
         (Some default_client) /\
     msgQueue l = Some (mkChan [] false) /\ wg l = 0 /\ closed l = false).
Proof.
  intros token chat. unfold Simple. fold token chat.
  split; [intros ->; reflexivity |].
  split; [intros Hb ->; now rewrite (eqb_false_of_neq _ _ Hb) |].
  intros Hb Hc.
  rewrite (eqb_false_of_neq _ _ Hb), (eqb_false_of_neq _ _ Hc).
  unfold New. cbn.
  rewrite (eqb_false_of_neq _ _ Hb), (eqb_false_of_neq _ _ Hc).
  eexists. split; [reflexivity |]. cbn. auto.
Qed.

(** X13: [NewSecure] fails exactly when the token or the chat ID of the
    configuration is empty; the client of a logger it returns is the one
    built from the secure configuration, with its timeout, whatever client
    the caller had put into the configuration: that one is never used. *)
Theorem NewSecure_replaces_the_client (T : Type) (cfg : Config)
    (sc : SecureConfig) :
  ((exists msg, @NewSecure T cfg sc = Err msg) <->
   BotToken cfg = "" \/ ChatID cfg = "") /\
  (forall l : Logger T,
     NewSecure cfg sc = Ok l ->
     httpClient l = Some (base (NewSecureClient sc)) /\
     HTTPClient (config l) = httpClient l /\
     Timeout (base (NewSecureClient sc)) = sc_Timeout sc) /\
  (forall c : option Client,
     @NewSecure T (with_HTTPClient cfg c) sc = NewSecure cfg sc).
Proof.
  unfold NewSecure, New, with_HTTPClient. cbn.
  destruct (String.eqb_spec (BotToken cfg) "") as [Hb | Hb];
    [| destruct (String.eqb_spec (ChatID cfg) "") as [Hc | Hc]].
  - split; [split; eauto |]. split; [discriminate | reflexivity].
  - split; [split; eauto |]. split; [discriminate | reflexivity].
  - split; [split; [intros [msg H]; discriminate | tauto] |].
    split; [| reflexivity].
    intros l H. injection H as <-. cbn. auto.
Qed.

Lemma GetLogLevelFromString_Debug_only (token : string) :
  GetLogLevelFromString token = Debug -> token = "debug".
Proof.
  unfold GetLogLevelFromString, Debug, Info, Warning, Error, Fatal.
  destruct (String.eqb_spec token "debug"); [auto |].
  repeat match goal with
  | |- context [if ?b then _ else _] => destruct b
  end; discriminate.
Qed.

Lemma WithEnv_MinLevel (T : Type) (env : Env) (l : Logger T) :
  WithEnv env = Ok l ->
  MinLevel (config l) =
    GetLogLevelFromString (os_Getenv env "TELEGRAM_LOG_LEVEL").
Proof.
  unfold WithEnv.
  destruct (String.eqb (os_Getenv env "TELEGRAM_BOT_TOKEN") "") eqn:Hb;
    [discriminate |].
  destruct (String.eqb (os_Getenv env "TELEGRAM_CHAT_ID") "") eqn:Hc;
    [discriminate |].
  unfold New, configure.
  destruct (String.eqb_spec (os_Getenv env "TELEGRAM_LOG_LEVEL") "")
    as [E | E];
    destruct (String.eqb (os_Getenv env "TELEGRAM_APP_NAME") "");
    destruct (String.eqb (os_Getenv env "TELEGRAM_ASYNC") "false");
    destruct (String.eqb (os_Getenv env "TELEGRAM_DISABLE_COLORS") "true");
    destruct (String.eqb (os_Getenv env "TELEGRAM_TIME_FORMAT") "");
    cbn; rewrite Hb, Hc; intro H; injection H as <-; cbn; rewrite ?E;
    reflexivity.
Qed.

(** X14: a logger from [WithEnv] sends Debug messages only if
    TELEGRAM_LOG_LEVEL is exactly "debug": with any other value (unset,
    "DEBUG", a word [GetLogLevelFromString] does not know) every [Debug]
    call on it, in any state of the logger and the world, returns having
    done nothing. *)
Theorem WithEnv_Debug_needs_debug (T : Type)
    (Format : T -> string -> string) (Arg : Type)
    (Sprintf : string -> list Arg -> string) (net : nat -> outcome)
    (env : Env) (l l' : Logger T) (w : World) (now : T) (format : string)
    (args : list Arg) :
  WithEnv env = Ok l ->
  os_Getenv env "TELEGRAM_LOG_LEVEL" <> "debug" ->
  config l' = config l ->
  Logger_Debug T Format Arg Sprintf net now format args (l', w) = (l', w).
Proof.
  intros Hl Hlevel Hcfg.
  assert (Hmin : Debug < MinLevel (config l')).
  { rewrite Hcfg.
    rewrite (WithEnv_MinLevel T env l Hl).
    pose proof (GetLogLevelFromString_range
                  (os_Getenv env "TELEGRAM_LOG_LEVEL")) as Hr.
    destruct (Z.eq_dec (GetLogLevelFromString
                          (os_Getenv env "TELEGRAM_LOG_LEVEL")) Debug)
      as [E | E]; [| lia].
    apply GetLogLevelFromString_Debug_only in E. contradiction. }
  unfold Logger_Debug, log.
  destruct (negb (is_live w)); [reflexivity |].
  apply Z.ltb_lt in Hmin. now rewrite Hmin.
Qed.

(** ** The further properties on concrete loggers and environments *)




Lemma configuration_is_fixed_by_New_witness :
  let acts := [ALog string string "2024-01-15" Info "a" [];
               AClose string string] in
  let cfg := mkConfig "TOKEN" "42" Warning "X" true false "" None in
  let l' := fst (run string demo_Format string demo_Sprintf
                   (fun _ => Responds 200) acts
                   (mkLogger
                      (mkConfig "TOKEN" "42" Warning "X" true false
                         default_time_format (Some default_client))
                      (Some default_client) (Some (mkChan [] false)) 0
                      false, world0)) in
  TimeFormat (config l') = "2006-01-02 15:04:05" /\
  httpClient l' = Some default_client.
Proof.
  cbv zeta.
  destruct (configuration_is_fixed_by_New string demo_Format string
              demo_Sprintf (fun _ => Responds 200)
              (mkConfig "TOKEN" "42" Warning "X" true false "" None)
              (mkLogger
                 (mkConfig "TOKEN" "42" Warning "X" true false
                    default_time_format (Some default_client))
                 (Some default_client) (Some (mkChan [] false)) 0 false)
              [ALog string string "2024-01-15" Info "a" [];
               AClose string string] eq_refl)
    as (_ & H2 & _ & _ & _ & _ & _ & _ & _ & _ & _ & H12 & _).
  split; [exact H12 |]. rewrite H2. reflexivity.
Defined.

Lemma New_accepts_its_own_configuration_witness :
  @New string (config (demo_logger true false)) =
  Ok (demo_logger true false).
Proof.
  apply (New_accepts_its_own_configuration string (demo_config true false)).
  reflexivity.
Defined.

Lemma synchronous_logger_is_stateless_witness :
  let net := fun _ : nat => PostFails "no route to host" in
  let acts := [ALog string string "2024-01-15" Info "a" [];
               AClose string string;
               ALog string string "2024-01-15" Error "b" [];
               AWorker string string] in
  let s := run string demo_Format string demo_Sprintf net acts
             (demo_logger false true, world0) in
  fst s = demo_logger false true /\ Close string net s = s.
Proof.
  cbv zeta.
  destruct (synchronous_logger_is_stateless string demo_Format string
              demo_Sprintf (fun _ => PostFails "no route to host")
              (demo_config false true) (demo_logger false true)
              [ALog string string "2024-01-15" Info "a" [];
               AClose string string;
               ALog string string "2024-01-15" Error "b" [];
               AWorker string string] eq_refl eq_refl)
    as (H1 & _ & _ & _ & H5 & _).
  split; [exact H1 | exact H5].
Defined.

Lemma Fatal_is_queued_when_asynchronous_witness :
  let s := Logger_Fatal string demo_Format string demo_Sprintf
             (fun _ => Responds 200) "2024-01-15" "out of disk" []
             (demo_logger true true, world0) in
  snd s = world0 /\
  pending (fst s) =
    [mkMessage Fatal
       ("<b>[X]</b> " ++ emoji_of Fatal ++ " [FATAL] 2024-01-15 - out of disk")
       "2024-01-15"].
Proof.
  cbv zeta.
  rewrite (Fatal_is_queued_when_asynchronous string demo_Format string
             demo_Sprintf (fun _ => Responds 200)
             (config (demo_logger true true)) [] (demo_logger true true)
             world0 "2024-01-15" "out of disk" []).
  - split; reflexivity.
  - repeat split.
  - unfold queue_capacity. cbn. lia.
  - discriminate.
Defined.

Lemma getLogLevelPrefix_out_of_range_witness :
  exists icon : string,
    getLogLevelPrefix 7 true = icon ++ " [UNKNOWN]" /\
    getLogLevelPrefix (-1) false = icon ++ " [UNKNOWN]".
Proof.
  destruct getLogLevelPrefix_out_of_range as [icon H]. exists icon. split.
  - apply (H 7 true). right. reflexivity.
  - apply (H (-1) false). left. reflexivity.
Defined.

Lemma WithEnv_reads_the_environment_witness :
  exists l : Logger string,
    WithEnv (env_of [("TELEGRAM_BOT_TOKEN", "TOKEN");
                     ("TELEGRAM_CHAT_ID", "42");
                     ("TELEGRAM_LOG_LEVEL", "warn");
                     ("TELEGRAM_ASYNC", "FALSE");
                     ("TELEGRAM_TIME_FORMAT", "")]) = Ok l /\
    MinLevel (config l) = Warning /\ Async (config l) = true /\
    TimeFormat (config l) = default_time_format.
Proof.
  destruct (WithEnv_reads_the_environment string
              (env_of [("TELEGRAM_BOT_TOKEN", "TOKEN");
                       ("TELEGRAM_CHAT_ID", "42");
                       ("TELEGRAM_LOG_LEVEL", "warn");
                       ("TELEGRAM_ASYNC", "FALSE");
                       ("TELEGRAM_TIME_FORMAT", "")]))
    as (_ & _ & H).
  destruct H as (l & Hl & _ & _ & Hm & _ & Ha & _ & Ht & _);
    [discriminate | discriminate |].
  exists l. split; [exact Hl |]. split; [exact Hm |].
  split; [exact Ha | exact Ht].
Defined.

Lemma Simple_uses_the_defaults_witness :
  exists l : Logger string,
    Simple (env_of [("TELEGRAM_BOT_TOKEN", "TOKEN");
                    ("TELEGRAM_CHAT_ID", "42");
                    ("TELEGRAM_LOG_LEVEL", "error");
                    ("TELEGRAM_ASYNC", "false")]) "X" = Ok l /\
    MinLevel (config l) = Info /\ Async (config l) = true.
Proof.
  destruct (Simple_uses_the_defaults string
              (env_of [("TELEGRAM_BOT_TOKEN", "TOKEN");
                       ("TELEGRAM_CHAT_ID", "42");
                       ("TELEGRAM_LOG_LEVEL", "error");
                       ("TELEGRAM_ASYNC", "false")]) "X")
    as (_ & _ & H).
  destruct H as (l & Hl & Hc & _); [discriminate | discriminate |].
  exists l. split; [exact Hl |]. rewrite Hc. split; reflexivity.
Defined.

Lemma NewSecure_replaces_the_client_witness :
  httpClient
    (mkLogger
       (mkConfig "TOKEN" "42" Info "X" false false default_time_format
          (Some (mkClient (3 * 1000000000))))
       (Some (mkClient (3 * 1000000000))) (@None (chan (message string))) 0
       false)
  = Some (base (NewSecureClient
                  (mkSecureConfig VersionTLS12 false (3 * 1000000000)))).
Proof.
  apply (NewSecure_replaces_the_client string
           (mkConfig "TOKEN" "42" Info "X" false false ""
              (Some (mkClient 1)))
           (mkSecureConfig VersionTLS12 false (3 * 1000000000))).
  reflexivity.
Defined.

Lemma WithEnv_Debug_needs_debug_witness :
  let l := mkLogger
             (mkConfig "TOKEN" "42" Info "" true false default_time_format
                (Some default_client))
             (Some default_client)
             (Some (mkChan (@nil (message string)) false)) 0 false in
  Logger_Debug string demo_Format string demo_Sprintf
    (fun _ => Responds 200) "2024-01-15" "details" [] (l, world0)
  = (l, world0).
Proof.
  cbv zeta.
  apply (WithEnv_Debug_needs_debug string demo_Format string demo_Sprintf
           (fun _ => Responds 200)
           (env_of [("TELEGRAM_BOT_TOKEN", "TOKEN");
                    ("TELEGRAM_CHAT_ID", "42");
                    ("TELEGRAM_LOG_LEVEL", "DEBUG")])
           (mkLogger
              (mkConfig "TOKEN" "42" Info "" true false default_time_format
                 (Some default_client))
              (Some default_client)
              (Some (mkChan (@nil (message string)) false)) 0 false)).
  - reflexivity.
  - discriminate.
  - reflexivity.
Defined.
